(** * run_challenge.py: the benchmark driver, embedded and verified

    The script compiles a Java solver with Maven and then runs the packaged
    jar once for every [.txt] entry of an input directory, stopping at the
    first child that fails.

    The embedding follows [src/run_challenge.py] function by function.
    Python's [str], [os.path] (POSIX flavour: the script targets macOS and
    Linux) and [subprocess] calls are given by small executable models;
    everything the host decides (environment, process table, directory
    listing, what a child process answers) is a field of the [Host] record.
    Effects are a state, log and exception monad [M]: the log records every
    interaction with the operating system and every printed line, in order. *)

From Stdlib Require Import String Ascii List ZArith Bool Lia DecimalString.
Import ListNotations.

Local Open Scope string_scope.
Local Open Scope list_scope.
Local Open Scope Z_scope.

(** String concatenation, written apart from list append. *)
Infix "^^" := String.append (at level 60, right associativity).

(* ------------------------------------------------------------------ *)
(** ** Python [str] operations used by the script *)

Module PyStr.

(** [s.startswith(pre)] *)
Definition startswith (s pre : string) : bool := String.prefix pre s.

(** [s.endswith(suf)]: the last [len(suf)] characters of [s] are [suf]. *)
Definition endswith (s suf : string) : bool :=
  (String.length suf <=? String.length s)%nat &&
  String.eqb
    (substring (String.length s - String.length suf) (String.length suf) s)
    suf.

(** [sub in s] *)
Fixpoint contains (sub s : string) : bool :=
  String.prefix sub s ||
  match s with
  | EmptyString => false
  | String _ r => contains sub r
  end.

(** [sep.join(l)] *)
Definition join (sep : string) (l : list string) : string :=
  String.concat sep l.

(** [s.rfind(c)] for a one-character [c]: the highest index holding [c],
    or [-1]. *)
Fixpoint rfind (c : ascii) (s : string) : Z :=
  match s with
  | EmptyString => -1
  | String a r =>
      let i := rfind c r in
      if 0 <=? i then i + 1
      else if Ascii.eqb a c then 0 else -1
  end.

(** [s[:i]], [s[i:]] and [s[i:i+1]] for [0 <= i]. *)
Definition slice_to (s : string) (i : Z) : string :=
  substring 0 (Z.to_nat i) s.

Definition slice_from (s : string) (i : Z) : string :=
  substring (Z.to_nat i) (String.length s - Z.to_nat i) s.

Definition slice1 (s : string) (i : Z) : string :=
  substring (Z.to_nat i) 1 s.

(** [str(n)] for an [int]. *)
Definition str_of_int (n : Z) : string :=
  NilZero.string_of_int (Z.to_int n).

(** Truthiness of a [str]: empty is false. *)
Definition truthy (s : string) : bool :=
  negb (String.eqb s "").

End PyStr.

(* ------------------------------------------------------------------ *)
(** ** [os.path] (posixpath) *)

Module OsPath.
Import PyStr.

(** One step of [os.path.join]: an absolute component replaces what came
    before it, otherwise it is appended after exactly one separator. *)
Definition join2 (path b : string) : string :=
  if startswith b "/" then b
  else if String.eqb path "" || endswith path "/" then path ^^ b
  else path ^^ "/" ^^ b.

(** [os.path.join(a, *p)] *)
Definition join (a : string) (p : list string) : string :=
  fold_left join2 p a.

(** The [while filenameIndex < dotIndex] loop of [genericpath._splitext];
    [n] is the number of iterations left, [dotIndex - filenameIndex]. *)
Fixpoint splitext_loop (p : string) (dotIndex : Z) (n : nat)
         (filenameIndex : Z) : string * string :=
  match n with
  | O => (p, "")
  | S n' =>
      if negb (String.eqb (slice1 p filenameIndex) ".")
      then (slice_to p dotIndex, slice_from p dotIndex)
      else splitext_loop p dotIndex n' (filenameIndex + 1)
  end.

(** [os.path.splitext(p)]: the extension starts at the last dot of the
    last path component, unless only dots precede it. *)
Definition splitext (p : string) : string * string :=
  let sepIndex := rfind "/" p in
  let dotIndex := rfind "." p in
  if sepIndex <? dotIndex
  then splitext_loop p dotIndex
         (Z.to_nat (dotIndex - (sepIndex + 1))) (sepIndex + 1)
  else (p, "").

(** [os.path.expandvars] on a pattern of the form [$HOME<rest>], where
    [rest] starts with [/]: the variable is replaced by its value, and the
    text is left as it is when the variable is unset. *)
Definition expandvars_HOME (HOME : option string) (rest : string) : string :=
  match HOME with
  | Some h => h ^^ rest
  | None => "$HOME" ^^ rest
  end.

End OsPath.

(* ------------------------------------------------------------------ *)
(** ** Module-level configuration *)

(** The three feature toggles.  The file sets them to [True], [True] and
    [False]; the functions below take them as a parameter so that every
    combination can be examined. *)
Record Toggles : Type := mkToggles {
  USE_CPLEX : bool;
  USE_OR_TOOLS : bool;
  USE_TIMEOUT : bool
}.

Definition source_toggles : Toggles :=
  {| USE_CPLEX := true; USE_OR_TOOLS := true; USE_TIMEOUT := false |}.

Definition MAX_RUNNING_TIME : string := "605s".

Definition JAR_NAME : string := "ChallengeSBPO2025-1.0.jar".

(** [CPLEX_PATH] and [OR_TOOLS_PATH] are computed once from [$HOME]. *)
Definition CPLEX_PATH (HOME : option string) : string :=
  OsPath.expandvars_HOME HOME "/CPLEX_Studio2211/opl/bin/arm64_osx/".

Definition OR_TOOLS_PATH (HOME : option string) : string :=
  OsPath.expandvars_HOME HOME "/Documents/or-tools/build/lib/".

(* ------------------------------------------------------------------ *)
(** ** The pure parts of [run_benchmark] *)

Section Pure.
Variable cfg : Toggles.
Variable HOME : option string.
Variable system : string.   (* platform.system() *)

(** Lines 63-70: the combined library path, [None] when no library is
    enabled. *)
Definition libraries : option string :=
  if USE_CPLEX cfg && USE_OR_TOOLS cfg
  then Some (OR_TOOLS_PATH HOME ^^ ":" ^^ CPLEX_PATH HOME)
  else if USE_CPLEX cfg then Some (CPLEX_PATH HOME)
  else if USE_OR_TOOLS cfg then Some (OR_TOOLS_PATH HOME)
  else None.

(** Lines 73-76: the timeout prefix. *)
Definition prefix : list string :=
  if USE_TIMEOUT cfg
  then
    let timeout_cmd :=
      if String.eqb system "Darwin" then "gtimeout" else "timeout" in
    [timeout_cmd; MAX_RUNNING_TIME]
  else [].

(** Line 79 *)
Definition jar_path (source_folder : string) : string :=
  OsPath.join source_folder ["target"; JAR_NAME].

(** Line 86 *)
Definition input_file (input_folder filename : string) : string :=
  OsPath.join input_folder [filename].

(** Line 87 *)
Definition output_file (output_folder filename : string) : string :=
  OsPath.join output_folder [fst (OsPath.splitext filename) ^^ ".txt"].

(** [if libraries:] is true for a string that is not empty. *)
Definition libraries_truthy : bool :=
  match libraries with
  | Some l => PyStr.truthy l
  | None => false
  end.

(** Lines 90-100 *)
Definition java_cmd (source_folder inp outp : string) : list string :=
  let java_cmd := ["java"] in
  let java_cmd :=
    if libraries_truthy
    then java_cmd ++
         ["-Djava.library.path=" ^^
          match libraries with Some l => l | None => "" end]
    else java_cmd in
  java_cmd ++
    ["--enable-native-access=ALL-UNNAMED";
     "-Xmx16g";
     "-jar";
     jar_path source_folder;
     inp;
     outp].

(** Line 102 *)
Definition cmd (source_folder input_folder output_folder filename : string)
  : list string :=
  prefix ++ java_cmd source_folder
              (input_file input_folder filename)
              (output_file output_folder filename).

End Pure.

(* ------------------------------------------------------------------ *)
(** ** The host: everything the operating system decides *)

(** Python exceptions the script can meet.  [SystemExit] is the only one
    that does not derive from [Exception]. *)
Inductive exn : Type :=
| TimeoutError (msg : string)     (* the script's own class, line 19 *)
| RuntimeError (msg : string)
| OSError (msg : string)          (* raised by os and subprocess calls *)
| ProcessError (msg : string)     (* raised by psutil *)
| SystemExit (code : Z).

Definition is_Exception (e : exn) : bool :=
  match e with
  | SystemExit _ => false
  | _ => true
  end.

(** [str(e)] *)
Definition exn_str (e : exn) : string :=
  match e with
  | TimeoutError m | RuntimeError m | OSError m | ProcessError m => m
  | SystemExit c => PyStr.str_of_int c
  end.

Inductive result (A : Type) : Type :=
| Ok (a : A)
| Raise (e : exn).
Arguments Ok {A} a.
Arguments Raise {A} e.

(** What [subprocess.run] returns. *)
Record CompletedProcess : Type := mkCompleted {
  returncode : Z;
  stderr : string
}.

(** The keyword arguments given to [subprocess.run]. *)
Record RunOpts : Type := mkRunOpts {
  capture_stdout : bool;
  capture_stderr : bool;
  text : bool;
  cwd : string
}.

(** One entry of [psutil.process_iter(['pid', 'cmdline'])].  [cmdline] is
    [None] when it cannot be read; [kill_error] is the message of the
    exception [proc.kill()] raises, [None] when the kill goes through. *)
Record Proc : Type := mkProc {
  pid : Z;
  cmdline : option (list string);
  kill_error : option string
}.

Record Host : Type := mkHost {
  environ_HOME : option string;
  platform_system : string;
  abspath : string -> string;
  process_iter : list Proc;
  listdir : string -> result (list string);
  (** the answer to the [n]-th [subprocess.run] of the script: a completed
      process, or the exception raised when it cannot be started *)
  subprocess_run : nat -> list string -> RunOpts -> result CompletedProcess
}.

(** The part of the file system [os.makedirs] reads and writes: which
    paths exist, and as what.  An entry is kept under the canonical
    spelling of its place ([/a/b] from the root, [a/b] from the current
    directory).  Symbolic links and permissions are outside the model,
    and so is what the children write. *)
Inductive node : Type := Dir | File.

Definition FS : Type := list (string * node).

Fixpoint lookup (fs : FS) (p : string) : option node :=
  match fs with
  | [] => None
  | (q, k) :: r => if String.eqb q p then Some k else lookup r p
  end.

(** [p.split('/')], with [acc] the piece being read. *)
Fixpoint split_slash (acc p : string) : list string :=
  match p with
  | EmptyString => [acc]
  | String c r =>
      if Ascii.eqb c "/" then acc :: split_slash "" r
      else split_slash (acc ^^ String c EmptyString) r
  end.

(** The components of a path as the system walks them: doubled and
    trailing slashes add none. *)
Definition components (p : string) : list string :=
  filter (fun c => negb (String.eqb c "")) (split_slash "" p).

(** A place in the tree: where the walk started (the root or the current
    directory) and the names that lead to it, innermost first. *)
Record place : Type := mkPlace {
  from_root : bool;
  trail : list string
}.

Definition start (p : string) : place :=
  mkPlace (PyStr.startswith p "/") [].

(** One component further: [.] stays, [..] goes to the parent (the root
    is its own parent), a name goes down. *)
Definition step (c : place) (name : string) : place :=
  if String.eqb name "." then c
  else if String.eqb name ".." then
    match trail c with
    | [] => if from_root c then c else mkPlace false [".."]
    | top :: rest =>
        if String.eqb top ".." then mkPlace (from_root c) (".." :: trail c)
        else mkPlace (from_root c) rest
    end
  else mkPlace (from_root c) (name :: trail c).

(** The root, the current directory and the directories above it are
    there whatever the entries say. *)
Definition always_there (c : place) : bool :=
  forallb (fun n => String.eqb n "..") (trail c).

Definition spelling (c : place) : string :=
  (if from_root c then "/" else "") ^^ String.concat "/" (rev (trail c)).

Definition node_at (fs : FS) (c : place) : option node :=
  if always_there c then Some Dir else lookup fs (spelling c).

(** Walking [comps] from [cur]: every place walked through has to be a
    directory. *)
Fixpoint resolve (fs : FS) (cur : place) (comps : list string)
  : option place :=
  match comps with
  | [] => Some cur
  | c :: r =>
      match node_at fs cur with
      | Some Dir => resolve fs (step cur c) r
      | _ => None
      end
  end.

(** What a path names, if anything; the empty path names nothing. *)
Definition stat (fs : FS) (p : string) : option node :=
  if String.eqb p "" then None
  else match resolve fs (start p) (components p) with
       | Some c => node_at fs c
       | None => None
       end.

(** [os.path.isdir(p)] *)
Definition is_dir (fs : FS) (p : string) : bool :=
  match stat fs p with
  | Some Dir => true
  | _ => false
  end.

(** The walk of [os.makedirs]: every place on the way that is missing is
    created, outermost first; a regular file on the way is an [OSError]
    ([FileExistsError] when it is the last component,
    [NotADirectoryError] otherwise). *)
Fixpoint mkdir_walk (fs : FS) (cur : place) (comps : list string)
  : result unit * FS :=
  match comps with
  | [] => (Ok tt, fs)
  | c :: r =>
      let cur' := step cur c in
      match node_at fs cur' with
      | Some Dir => mkdir_walk fs cur' r
      | Some File =>
          (Raise (OSError
                    match r with
                    | [] => "[Errno 17] File exists: '"
                              ^^ spelling cur' ^^ "'"
                    | c' :: _ => "[Errno 20] Not a directory: '"
                                   ^^ spelling cur' ^^ "/" ^^ c' ^^ "'"
                    end),
           fs)
      | None => mkdir_walk (fs ++ [(spelling cur', Dir)]) cur' r
      end
  end.

(** [os.makedirs(p, exist_ok=True)]: the empty path is an error
    ([FileNotFoundError]); otherwise the directory and its missing
    parents are created, and directories that exist are left as they
    are. *)
Definition makedirs_exist_ok (p : string) (fs : FS) : result unit * FS :=
  if String.eqb p ""
  then (Raise (OSError "[Errno 2] No such file or directory: ''"), fs)
  else mkdir_walk fs (start p) (components p).

(* ------------------------------------------------------------------ *)
(** ** The monad of the script: state, log and exceptions *)

(** Every interaction with the outside, in the order it happens. *)
Inductive event : Type :=
| EvPrint (line : string)
| EvKill (pid : Z)
| EvMakedirs (path : string)
| EvListdir (path : string)
| EvRun (cmd : list string) (opts : RunOpts).

(** [fs] holds the files and directories as the script's own calls see
    and make them; what a child process writes is not recorded in it. *)
Record St : Type := mkSt {
  fs : FS;
  nrun : nat            (* how many [subprocess.run] calls were made *)
}.

Record Out (A : Type) : Type := mkOut {
  res : result A;
  st : St;
  log : list event
}.
Arguments mkOut {A} res st log.
Arguments res {A} o.
Arguments st {A} o.
Arguments log {A} o.

Definition M (A : Type) : Type := St -> Out A.

Definition ret {A} (a : A) : M A :=
  fun s => mkOut (Ok a) s [].

Definition raise {A} (e : exn) : M A :=
  fun s => mkOut (Raise e) s [].

Definition bind {A B} (m : M A) (k : A -> M B) : M B :=
  fun s =>
    let o := m s in
    match res o with
    | Ok a => let o' := k a (st o) in
              mkOut (res o') (st o') (log o ++ log o')
    | Raise e => mkOut (Raise e) (st o) (log o)
    end.

(** [try: m  except Exception as e: h e] *)
Definition try_except (m : M unit) (h : exn -> M unit) : M unit :=
  fun s =>
    let o := m s in
    match res o with
    | Ok a => o
    | Raise e =>
        if is_Exception e
        then let o' := h e (st o) in
             mkOut (res o') (st o') (log o ++ log o')
        else o
    end.

Declare Scope py_scope.
Delimit Scope py_scope with py.
Notation "x <- m ;; k" := (bind m (fun x => k))
  (at level 61, m at next level, right associativity) : py_scope.
Notation "m ;; k" := (bind m (fun _ => k))
  (at level 61, right associativity) : py_scope.
Local Open Scope py_scope.

(** [for x in l: body x] *)
Fixpoint for_each {A} (body : A -> M unit) (l : list A) : M unit :=
  match l with
  | [] => ret tt
  | x :: r => body x ;; for_each body r
  end.

Definition emit (e : event) : M unit :=
  fun s => mkOut (Ok tt) s [e].

Definition print (line : string) : M unit := emit (EvPrint line).

Definition os_makedirs (p : string) : M unit :=
  fun s =>
    let (r, fs') := makedirs_exist_ok p (fs s) in
    mkOut r (mkSt fs' (nrun s)) [EvMakedirs p].

Section Script.
Variable host : Host.
Variable cfg : Toggles.

Definition os_listdir (p : string) : M (list string) :=
  fun s => mkOut (listdir host p) s [EvListdir p].

(** [subprocess.run(c, ...)]: the call is logged and counted, and its
    result is the host's answer.  The files the child reads and writes are
    its own business: [fs] is handed on as it is. *)
Definition run_process (c : list string) (o : RunOpts)
  : M CompletedProcess :=
  fun s =>
    mkOut (subprocess_run host (nrun s) c o)
          (mkSt (fs s) (S (nrun s)))
          [EvRun c o].

Definition proc_kill (p : Proc) : M unit :=
  emit (EvKill (pid p)) ;;
  match kill_error p with
  | None => ret tt
  | Some msg => raise (ProcessError msg)
  end.

(** [cmdline and 'ChallengeSBPO2025-1.0.jar' in ' '.join(cmdline)] *)
Definition is_stale (p : Proc) : bool :=
  match cmdline p with
  | None => false
  | Some [] => false
  | Some c => PyStr.contains JAR_NAME (PyStr.join " " c)
  end.

(** Lines 24-33 *)
Definition kill_existing_java_instances : M unit :=
  for_each
    (fun proc =>
       if is_stale proc then
         print ("Killing stale Java process: PID "
                  ^^ PyStr.str_of_int (pid proc)) ;;
         try_except (proc_kill proc)
           (fun e =>
              print ("Failed to kill process "
                       ^^ PyStr.str_of_int (pid proc) ^^ ": "
                       ^^ exn_str e))
       else ret tt)
    (process_iter host).

Definition compile_opts (source_folder : string) : RunOpts :=
  mkRunOpts true true true source_folder.

(** Lines 36-52 *)
Definition compile_code (source_folder : string) : M bool :=
  print ("Compiling code in " ^^ source_folder ^^ "...") ;;
  result <- run_process ["mvn"; "clean"; "package"]
                        (compile_opts source_folder) ;;
  if negb (returncode result =? 0) then
    print "Maven compilation failed:" ;;
    print (stderr result) ;;
    ret false
  else
    print "Maven compilation successful." ;;
    ret true.

Definition java_opts (source_folder : string) : RunOpts :=
  mkRunOpts false true true source_folder.

(** Lines 111-120: the two checks on the exit status of one child. *)
Definition check_exit (input_file : string) (result : CompletedProcess)
  : M unit :=
  (if USE_TIMEOUT cfg && (returncode result =? 124) then
     let error_msg :=
       "Execution timed out after " ^^ MAX_RUNNING_TIME
         ^^ " for " ^^ input_file in
     print error_msg ;;
     raise (TimeoutError error_msg)
   else ret tt) ;;
  (if negb (returncode result =? 0) then
     print ("Execution failed for " ^^ input_file ^^ ":") ;;
     print (stderr result) ;;
     raise (RuntimeError
              ("Execution failed for " ^^ input_file ^^ ": "
                 ^^ stderr result))
   else ret tt).

(** Lines 82-120: the body of the loop over [os.listdir]. *)
Definition run_one (source_folder input_folder output_folder : string)
           (filename : string) : M unit :=
  if negb (PyStr.endswith filename ".txt") then ret tt   (* continue *)
  else
    print ("Running " ^^ filename) ;;
    let input_file := input_file input_folder filename in
    let cmd :=
      cmd cfg (environ_HOME host) (platform_system host)
          source_folder input_folder output_folder filename in
    result <- run_process cmd (java_opts source_folder) ;;
    check_exit input_file result.

(** Lines 55-120 *)
Definition run_benchmark (source_folder input_folder output_folder : string)
  : M unit :=
  kill_existing_java_instances ;;
  os_makedirs output_folder ;;
  print ("Using JAR: " ^^ jar_path source_folder) ;;
  names <- os_listdir input_folder ;;
  for_each (run_one source_folder input_folder output_folder) names.

(** Lines 123-134, with [argv] standing for [sys.argv]. *)
Definition main (argv : list string) : M unit :=
  if negb (Nat.eqb (List.length argv) 4) then
    print "Usage: python run_challenge.py <source_folder> <input_folder> <output_folder>" ;;
    raise (SystemExit 1)
  else
    let source_folder := abspath host (nth 1 argv "") in
    let input_folder := abspath host (nth 2 argv "") in
    let output_folder := abspath host (nth 3 argv "") in
    ok <- compile_code source_folder ;;
    if ok then run_benchmark source_folder input_folder output_folder
    else ret tt.

End Script.

(* ------------------------------------------------------------------ *)
(** ** Vocabulary of the statements *)

(** The test of line 83: the entries the loop does not skip. *)
Definition recognized (filename : string) : bool :=
  PyStr.endswith filename ".txt".

(** What precedes the final [.txt] of a recognized name. *)
Definition stem (filename : string) : string :=
  substring 0 (String.length filename - 4) filename.

Fixpoint only_dots (s : string) : bool :=
  match s with
  | EmptyString => true
  | String c r => Ascii.eqb c "." && only_dots r
  end.

(** ['/' in s] *)
Definition has_sep (s : string) : bool := PyStr.contains "/" s.

(** Projections of a log. *)
Fixpoint runs_of (l : list event) : list (list string * RunOpts) :=
  match l with
  | [] => []
  | EvRun c o :: r => (c, o) :: runs_of r
  | _ :: r => runs_of r
  end.

Fixpoint listdirs_of (l : list event) : list string :=
  match l with
  | [] => []
  | EvListdir p :: r => p :: listdirs_of r
  | _ :: r => listdirs_of r
  end.

Fixpoint kills_of (l : list event) : list Z :=
  match l with
  | [] => []
  | EvKill p :: r => p :: kills_of r
  | _ :: r => kills_of r
  end.

(** A regular file lies on the walk of [comps] from [cur]. *)
Fixpoint blocked (fs : FS) (cur : place) (comps : list string) : bool :=
  match comps with
  | [] => false
  | c :: r =>
      match node_at fs (step cur c) with
      | Some File => true
      | _ => blocked fs (step cur c) r
      end
  end.

(** A component of [p] names a regular file: the one thing that keeps
    [os.makedirs] from making a path that is not empty. *)
Definition file_in_the_way (fs : FS) (p : string) : bool :=
  blocked fs (start p) (components p).

(** The log a run is expected to leave, piece by piece. *)
Section ExpectedLog.
Variable host : Host.
Variable cfg : Toggles.
Variables source_folder input_folder output_folder : string.

(** What the sweep does with one process. *)
Definition sweep_events (p : Proc) : list event :=
  if is_stale p then
    [EvPrint ("Killing stale Java process: PID "
                ^^ PyStr.str_of_int (pid p));
     EvKill (pid p)]
    ++ match kill_error p with
       | None => []
       | Some msg =>
           [EvPrint ("Failed to kill process "
                       ^^ PyStr.str_of_int (pid p) ^^ ": " ^^ msg)]
       end
  else [].

Definition sweep_log : list event :=
  flat_map sweep_events (process_iter host).

(** The command and options of the child started for one entry. *)
Definition spawn (filename : string) : list string * RunOpts :=
  (cmd cfg (environ_HOME host) (platform_system host)
       source_folder input_folder output_folder filename,
   java_opts source_folder).

Definition run_events (filename : string) : list event :=
  [EvPrint ("Running " ^^ filename);
   EvRun (fst (spawn filename)) (snd (spawn filename))].

(** Everything logged before the loop starts. *)
Definition head_log : list event :=
  sweep_log ++
  [EvMakedirs output_folder;
   EvPrint ("Using JAR: " ^^ jar_path source_folder);
   EvListdir input_folder].

(** The children started for [files], the first of them being the
    [n]-th [subprocess.run] of the script, all exit with status 0. *)
Fixpoint all_exit_zero (n : nat) (files : list string) : bool :=
  match files with
  | [] => true
  | f :: r =>
      match subprocess_run host n (fst (spawn f)) (snd (spawn f)) with
      | Ok cp => (returncode cp =? 0) && all_exit_zero (S n) r
      | Raise _ => false
      end
  end.

End ExpectedLog.

(** The library path as the specification words it, reading "first
    library" as the one the configuration names first ([USE_CPLEX],
    [CPLEX_PATH]) and "second" as the other. *)
Definition spec_libraries (cfg : Toggles) (HOME : option string)
  : option string :=
  match USE_CPLEX cfg, USE_OR_TOOLS cfg with
  | true, true => Some (CPLEX_PATH HOME ^^ ":" ^^ OR_TOOLS_PATH HOME)
  | true, false => Some (CPLEX_PATH HOME)
  | false, true => Some (OR_TOOLS_PATH HOME)
  | false, false => None
  end.

(* ------------------------------------------------------------------ *)
(** ** Concrete hosts, for running the model *)

Module Scenario.

(** A directory with five recognized entries and one that is not. *)
Definition five_inputs : list string :=
  ["a.txt"; "notes.md"; "b.txt"; "c.txt"; "d.txt"; "e.txt"].

Definition table : list Proc :=
  [mkProc 41 (Some ["java"; "-jar"; "/w/target/ChallengeSBPO2025-1.0.jar"])
          None;
   mkProc 42 None None;
   mkProc 43 (Some ["vim"; "notes.md"]) None;
   mkProc 44 (Some ["java"; "-jar"; "ChallengeSBPO2025-1.0.jar"; "x.txt"])
          (Some "access denied")].

(** The build succeeds; every child exits with 0, except the third one
    started by the loop, which exits with [rc]. *)
Definition third_fails (rc : Z) : Host :=
  mkHost (Some "/home/user") "Linux" (fun p => p) table
         (fun _ => Ok five_inputs)
         (fun n c o =>
            Ok (mkCompleted (if Nat.eqb n 2 then rc else 0) "solver crashed")).

(** The build fails with status 1. *)
Definition build_fails : Host :=
  mkHost (Some "/home/user") "Darwin" (fun p => p) table
         (fun _ => Ok five_inputs)
         (fun n c o => Ok (mkCompleted 1 "BUILD FAILURE")).

(** A directory without any recognized entry. *)
Definition nothing_to_run : Host :=
  mkHost (Some "/home/user") "Linux" (fun p => p) table
         (fun _ => Ok ["notes.md"; "data.csv"; "txt"])
         (fun n c o => Ok (mkCompleted 0 "")).

Definition timeout_on : Toggles := mkToggles true true true.

Definition st0 : St := mkSt [("/w", Dir)] 0.

End Scenario.

(* ================================================================== *)
(** * Properties *)

(* ------------------------------------------------------------------ *)
(** ** Strings *)

Module StrFacts.
Import PyStr.

Lemma app_assoc_s (a b c : string) : (a ^^ b) ^^ c = a ^^ b ^^ c.
Proof. induction a as [|x a IH]; simpl; [reflexivity | now rewrite IH]. Qed.

Lemma app_empty_r (a : string) : a ^^ "" = a.
Proof. induction a as [|x a IH]; simpl; [reflexivity | now rewrite IH]. Qed.

Lemma length_app (a b : string) :
  String.length (a ^^ b) = (String.length a + String.length b)%nat.
Proof. induction a as [|x a IH]; simpl; [reflexivity | now rewrite IH]. Qed.


Lemma substring_all (b : string) : substring 0 (String.length b) b = b.
Proof. induction b as [|x b IH]; simpl; [reflexivity | now rewrite IH]. Qed.

Lemma substring_skip (a b : string) (m : nat) :
  substring (String.length a) m (a ^^ b) = substring 0 m b.
Proof. induction a as [|x a IH]; simpl; [reflexivity | exact IH]. Qed.

Lemma substring_take (a b : string) :
  substring 0 (String.length a) (a ^^ b) = a.
Proof.
  induction a as [|x a IH]; simpl.
  - destruct b; reflexivity.
  - now rewrite IH.
Qed.

(** A string is its first [n] characters followed by the rest. *)
Lemma substring_split (s : string) (n : nat) :
  (n <= String.length s)%nat ->
  s = substring 0 n s ^^ substring n (String.length s - n) s.
Proof.
  revert n; induction s as [|x s IH]; intros n Hn; simpl in *.
  - destruct n; [reflexivity | lia].
  - destruct n as [|n]; simpl.
    + now rewrite substring_all.
    + f_equal. apply IH. lia.
Qed.

Lemma endswith_app (s suf : string) : endswith (s ^^ suf) suf = true.
Proof.
  unfold endswith. rewrite length_app.
  replace (String.length s + String.length suf - String.length suf)%nat
    with (String.length s) by lia.
  rewrite substring_skip, substring_all, String.eqb_refl.
  rewrite andb_true_r. apply Nat.leb_le. lia.
Qed.

Lemma endswith_inv (f suf : string) :
  endswith f suf = true ->
  f = substring 0 (String.length f - String.length suf) f ^^ suf.
Proof.
  unfold endswith. intros H.
  apply andb_true_iff in H. destruct H as [Hlen Heq].
  apply Nat.leb_le in Hlen. apply String.eqb_eq in Heq.
  rewrite (substring_split f (String.length f - String.length suf)) at 1
    by lia.
  f_equal.
  replace (String.length f - (String.length f - String.length suf))%nat
    with (String.length suf) by lia.
  exact Heq.
Qed.

(** [rfind] on a concatenation whose right part holds the character. *)
Lemma rfind_app_found (c : ascii) (a b : string) :
  0 <= rfind c b ->
  rfind c (a ^^ b) = Z.of_nat (String.length a) + rfind c b.
Proof.
  intros Hb. induction a as [|x a IH]; simpl String.length; simpl append.
  - simpl. lia.
  - cbn [rfind]. rewrite IH.
    destruct (0 <=? Z.of_nat (String.length a) + rfind c b) eqn:E.
    + lia.
    + apply Z.leb_gt in E. lia.
Qed.

(** [rfind] on a concatenation whose right part lacks the character. *)
Lemma rfind_app_absent (c : ascii) (a b : string) :
  rfind c b = -1 -> rfind c (a ^^ b) = rfind c a.
Proof.
  intros Hb. induction a as [|x a IH]; simpl append.
  - exact Hb.
  - cbn [rfind]. now rewrite IH.
Qed.

Lemma rfind_lower (c : ascii) (s : string) : -1 <= rfind c s.
Proof.
  induction s as [|x s IH]; cbn [rfind]; [lia|].
  destruct (0 <=? rfind c s) eqn:E.
  - apply Z.leb_le in E. lia.
  - destruct (Ascii.eqb x c); lia.
Qed.

(** ['/' in s] is false exactly when [s.rfind('/')] is [-1]. *)
Lemma contains_char_rfind (c : ascii) (s : string) :
  contains (String c "") s = false <-> rfind c s = -1.
Proof.
  induction s as [|x s IH].
  - simpl. tauto.
  - cbn [contains rfind String.prefix].
    pose proof (rfind_lower c s) as Hl.
    destruct (ascii_dec c x) as [->|Hne].
    + rewrite Ascii.eqb_refl.
      assert (String.prefix "" s = true) as -> by (destruct s; reflexivity).
      simpl. destruct (0 <=? rfind x s) eqn:E.
      * apply Z.leb_le in E. split; [discriminate | lia].
      * split; [discriminate | lia].
    + assert (Ascii.eqb x c = false) as ->
        by (apply Ascii.eqb_neq; congruence).
      simpl. destruct (0 <=? rfind c s) eqn:E.
      * apply Z.leb_le in E. rewrite IH. lia.
      * apply Z.leb_gt in E. rewrite IH. lia.
Qed.

End StrFacts.

(* ------------------------------------------------------------------ *)
(** ** [os.path.splitext] on recognized names *)

Module SplitextFacts.
Import PyStr OsPath StrFacts.

Lemma substring_0_0 (s : string) : substring 0 0 s = "".
Proof. destruct s; reflexivity. Qed.

Lemma slice1_at (pre : string) (c : ascii) (r : string) :
  slice1 (pre ^^ String c r) (Z.of_nat (String.length pre)) = String c "".
Proof.
  unfold slice1. rewrite Nat2Z.id, substring_skip. simpl.
  now rewrite substring_0_0.
Qed.

(** The loop looks at the characters of [s] one by one and stops at the
    first that is not a dot. *)
Lemma splitext_loop_spec (s pre rest : string) (d : Z) :
  splitext_loop (pre ^^ s ^^ rest) d (String.length s)
                (Z.of_nat (String.length pre))
  = if only_dots s then (pre ^^ s ^^ rest, "")
    else (slice_to (pre ^^ s ^^ rest) d, slice_from (pre ^^ s ^^ rest) d).
Proof.
  revert pre. induction s as [|c s IH]; intros pre.
  - reflexivity.
  - cbn [String.length splitext_loop only_dots].
    change ((String c s) ^^ rest) with (String c (s ^^ rest)).
    rewrite slice1_at.
    cbn [String.eqb].
    destruct (Ascii.eqb c ".") eqn:Ec; cbn [negb andb]; [|reflexivity].
    specialize (IH (pre ^^ String c "")).
    rewrite length_app in IH. cbn [String.length] in IH.
    rewrite app_assoc_s in IH. cbn [append] in IH.
    replace (Z.of_nat (String.length pre) + 1)
      with (Z.of_nat (String.length pre + 1)) by lia.
    exact IH.
Qed.

Lemma splitext_txt (s : string) :
  rfind "/" s = -1 ->
  splitext (s ^^ ".txt")
  = if only_dots s then (s ^^ ".txt", "") else (s, ".txt").
Proof.
  intros Hsep. unfold splitext.
  rewrite (rfind_app_absent "/" s ".txt") by reflexivity.
  rewrite (rfind_app_found "." s ".txt") by (vm_compute; discriminate).
  rewrite Hsep.
  change (rfind "." ".txt") with 0.
  replace (-1 <? Z.of_nat (String.length s) + 0) with true
    by (symmetry; apply Z.ltb_lt; lia).
  replace (Z.to_nat (Z.of_nat (String.length s) + 0 - (-1 + 1)))
    with (String.length s) by lia.
  change (-1 + 1) with (Z.of_nat (String.length "")).
  pose proof (splitext_loop_spec s "" ".txt"
                (Z.of_nat (String.length s) + 0)) as H.
  cbn [append] in H. rewrite H.
  destruct (only_dots s); [reflexivity|].
  unfold slice_to, slice_from.
  replace (Z.to_nat (Z.of_nat (String.length s) + 0))
    with (String.length s) by lia.
  rewrite substring_take, substring_skip, length_app.
  replace (String.length s + String.length ".txt" - String.length s)%nat
    with (String.length ".txt") by lia.
  now rewrite substring_all.
Qed.

(** A recognized name without separator is its stem followed by [.txt]. *)
Lemma recognized_stem (f : string) :
  recognized f = true -> f = stem f ^^ ".txt".
Proof. intros H. exact (endswith_inv f ".txt" H). Qed.

Lemma stem_no_sep (f : string) :
  recognized f = true -> has_sep f = false -> rfind "/" (stem f) = -1.
Proof.
  intros Hr Hs. apply contains_char_rfind in Hs.
  rewrite (recognized_stem f Hr) in Hs.
  rewrite rfind_app_absent in Hs by reflexivity. exact Hs.
Qed.

(** The name line 87 gives to the output of a recognized entry. *)
Lemma output_name (f : string) :
  recognized f = true -> has_sep f = false ->
  fst (splitext f) ^^ ".txt"
  = if only_dots (stem f) then f ^^ ".txt" else f.
Proof.
  intros Hr Hs.
  pose proof (stem_no_sep f Hr Hs) as Hsep.
  pose proof (recognized_stem f Hr) as Hf.
  rewrite Hf at 1. rewrite splitext_txt by exact Hsep.
  destruct (only_dots (stem f)); cbn [fst]; now rewrite <- Hf.
Qed.

End SplitextFacts.

(* ------------------------------------------------------------------ *)
(** ** Running the script *)

Lemma runs_of_app (a b : list event) :
  runs_of (a ++ b) = runs_of a ++ runs_of b.
Proof.
  induction a as [|e a IH]; simpl; [reflexivity|].
  destruct e; simpl; now rewrite IH.
Qed.

Lemma listdirs_of_app (a b : list event) :
  listdirs_of (a ++ b) = listdirs_of a ++ listdirs_of b.
Proof.
  induction a as [|e a IH]; simpl; [reflexivity|].
  destruct e; simpl; now rewrite IH.
Qed.

Lemma kills_of_app (a b : list event) :
  kills_of (a ++ b) = kills_of a ++ kills_of b.
Proof.
  induction a as [|e a IH]; simpl; [reflexivity|].
  destruct e; simpl; now rewrite IH.
Qed.

Lemma St_eta (s : St) : mkSt (fs s) (nrun s) = s.
Proof. destruct s; reflexivity. Qed.

Section RunFacts.
Variable host : Host.
Variable cfg : Toggles.
Variables source_folder input_folder output_folder : string.

Let body := run_one host cfg source_folder input_folder output_folder.
Let spawn' := spawn host cfg source_folder input_folder output_folder.
Let events := run_events host cfg source_folder input_folder output_folder.

(** *** The sweep *)

Lemma sweep_one (p : Proc) (s : St) :
  (if is_stale p then
     (print ("Killing stale Java process: PID "
               ^^ PyStr.str_of_int (pid p)) ;;
      try_except (proc_kill p)
        (fun e =>
           print ("Failed to kill process "
                    ^^ PyStr.str_of_int (pid p) ^^ ": " ^^ exn_str e)))%py
   else ret tt) s
  = mkOut (Ok tt) s (sweep_events p).
Proof.
  unfold sweep_events.
  destruct (is_stale p); [|reflexivity].
  unfold bind, try_except, proc_kill, print, emit, bind.
  destruct (kill_error p); reflexivity.
Qed.

Lemma sweep_spec (s : St) :
  kill_existing_java_instances host s = mkOut (Ok tt) s (sweep_log host).
Proof.
  unfold kill_existing_java_instances, sweep_log.
  induction (process_iter host) as [|p l IH]; [reflexivity|].
  cbn [for_each flat_map]. unfold bind at 1.
  rewrite sweep_one. cbn [res st log]. now rewrite IH.
Qed.

Lemma runs_of_sweep : runs_of (sweep_log host) = [].
Proof.
  unfold sweep_log.
  induction (process_iter host) as [|p l IH]; [reflexivity|].
  cbn [flat_map]. rewrite runs_of_app, IH, app_nil_r.
  unfold sweep_events.
  destruct (is_stale p); [|reflexivity].
  destruct (kill_error p); reflexivity.
Qed.

Lemma listdirs_of_sweep : listdirs_of (sweep_log host) = [].
Proof.
  unfold sweep_log.
  induction (process_iter host) as [|p l IH]; [reflexivity|].
  cbn [flat_map]. rewrite listdirs_of_app, IH, app_nil_r.
  unfold sweep_events.
  destruct (is_stale p); [|reflexivity].
  destruct (kill_error p); reflexivity.
Qed.

Lemma kills_of_sweep :
  kills_of (sweep_log host) = map pid (filter is_stale (process_iter host)).
Proof.
  unfold sweep_log.
  induction (process_iter host) as [|p l IH]; [reflexivity|].
  cbn [flat_map filter]. rewrite kills_of_app, IH.
  unfold sweep_events.
  destruct (is_stale p); [|reflexivity].
  destruct (kill_error p); reflexivity.
Qed.

(** *** One iteration of the loop *)

Lemma run_one_skip (f : string) (s : St) :
  recognized f = false -> body f s = mkOut (Ok tt) s [].
Proof.
  intros H. unfold body, run_one. fold (recognized f). now rewrite H.
Qed.

Lemma run_one_recognized (f : string) (s : St) :
  recognized f = true ->
  body f s =
  let s' := mkSt (fs s) (S (nrun s)) in
  match subprocess_run host (nrun s) (fst (spawn' f)) (snd (spawn' f)) with
  | Raise e => mkOut (Raise e) s' (events f)
  | Ok cp =>
      if USE_TIMEOUT cfg && (returncode cp =? 124) then
        let msg := "Execution timed out after " ^^ MAX_RUNNING_TIME
                     ^^ " for " ^^ input_file input_folder f in
        mkOut (Raise (TimeoutError msg)) s' (events f ++ [EvPrint msg])
      else if negb (returncode cp =? 0) then
        mkOut (Raise (RuntimeError
                        ("Execution failed for " ^^ input_file input_folder f
                           ^^ ": " ^^ stderr cp)))
              s'
              (events f ++
               [EvPrint ("Execution failed for "
                           ^^ input_file input_folder f ^^ ":");
                EvPrint (stderr cp)])
      else mkOut (Ok tt) s' (events f)
  end.
Proof.
  intros H. unfold body, run_one. fold (recognized f). rewrite H.
  cbn [negb]. unfold spawn', events, run_events, spawn. cbn [fst snd].
  unfold bind, print, emit, run_process, check_exit, raise, ret.
  cbn [res st log fs nrun].
  destruct (subprocess_run host (nrun s) _ _) as [cp|e];
    cbn [res st log fs nrun]; [|reflexivity].
  destruct (USE_TIMEOUT cfg && (returncode cp =? 124));
    cbn [res st log fs nrun app]; [reflexivity|].
  destruct (negb (returncode cp =? 0)); reflexivity.
Qed.

(** *** The loop *)

Lemma bind_eq {A B} (m : M A) (k : A -> M B) (s : St) :
  bind m k s =
  match res (m s) with
  | Ok a =>
      let o' := k a (st (m s)) in
      mkOut (res o') (st o') (log (m s) ++ log o')
  | Raise e => mkOut (Raise e) (st (m s)) (log (m s))
  end.
Proof. reflexivity. Qed.

Lemma Out_eta {A} (o : Out A) : mkOut (res o) (st o) (log o) = o.
Proof. destruct o; reflexivity. Qed.

Lemma for_each_cons {A} (b : A -> M unit) (x : A) (r : list A) (s : St) :
  for_each b (x :: r) s =
  match res (b x s) with
  | Ok _ =>
      let o' := for_each b r (st (b x s)) in
      mkOut (res o') (st o') (log (b x s) ++ log o')
  | Raise e => mkOut (Raise e) (st (b x s)) (log (b x s))
  end.
Proof. reflexivity. Qed.

(** Entries that are not recognized leave no mark at all. *)
Lemma loop_filter (names : list string) (s : St) :
  for_each body names s = for_each body (filter recognized names) s.
Proof.
  revert s. induction names as [|f names IH]; intros s; [reflexivity|].
  cbn [filter]. destruct (recognized f) eqn:Hf.
  - rewrite !for_each_cons.
    destruct (res (body f s)); [|reflexivity].
    cbn zeta. now rewrite IH.
  - rewrite for_each_cons, run_one_skip by exact Hf.
    cbn [res st log app]. cbn zeta. rewrite Out_eta. apply IH.
Qed.

Lemma filter_recognized (names : list string) :
  Forall (fun f => recognized f = true) (filter recognized names).
Proof. apply Forall_forall. intros f Hf. now apply filter_In in Hf. Qed.

(** As long as the children exit with status 0 the loop goes on. *)
Lemma loop_prefix_ok (pre rest : list string) (s : St) :
  Forall (fun f => recognized f = true) pre ->
  all_exit_zero host cfg source_folder input_folder output_folder
                (nrun s) pre = true ->
  for_each body (pre ++ rest) s =
  let o := for_each body rest (mkSt (fs s) (nrun s + List.length pre)) in
  mkOut (res o) (st o) (flat_map events pre ++ log o).
Proof.
  revert s. induction pre as [|f pre IH]; intros s Hrec Hok.
  - cbn [app List.length flat_map]. cbn zeta.
    rewrite Nat.add_0_r, St_eta, Out_eta. reflexivity.
  - inversion Hrec as [|? ? Hf Hrec']; subst.
    cbn [all_exit_zero] in Hok.
    cbn [app]. rewrite for_each_cons, run_one_recognized by exact Hf.
    fold spawn' in Hok. cbn zeta.
    destruct (subprocess_run host (nrun s) (fst (spawn' f)) (snd (spawn' f)))
      as [cp|e]; [|discriminate].
    apply andb_true_iff in Hok. destruct Hok as [Hrc Hok].
    apply Z.eqb_eq in Hrc. rewrite Hrc.
    change (0 =? 124) with false. rewrite andb_false_r.
    change (negb (0 =? 0)) with false. cbn [res st log].
    rewrite (IH (mkSt (fs s) (S (nrun s))) Hrec' Hok).
    cbn [fs nrun res st log flat_map List.length]. cbn zeta.
    replace (S (nrun s) + List.length pre)%nat
      with (nrun s + S (List.length pre))%nat by lia.
    now rewrite app_assoc.
Qed.

(** Whatever the children answer, the children started are those of an
    initial segment of the recognized entries, one each, in order. *)
Lemma loop_general (names : list string) (s : St) :
  let o := for_each body names s in
  fs (st o) = fs s /\
  (nrun s <= nrun (st o))%nat /\
  (nrun (st o) - nrun s <= List.length (filter recognized names))%nat /\
  runs_of (log o)
  = map spawn' (firstn (nrun (st o) - nrun s) (filter recognized names)) /\
  listdirs_of (log o) = [] /\
  kills_of (log o) = [].
Proof.
  cbn zeta. rewrite loop_filter.
  pose proof (filter_recognized names) as Hrec.
  revert s Hrec.
  induction (filter recognized names) as [|f l IH]; intros s Hrec.
  - cbn. rewrite Nat.sub_diag. repeat split; lia.
  - inversion Hrec as [|? ? Hf Hrec']; subst.
    rewrite for_each_cons, run_one_recognized by exact Hf.
    cbn zeta.
    assert (Hone : firstn (S (nrun s) - nrun s) (f :: l) = [f]).
    { replace (S (nrun s) - nrun s)%nat with 1%nat by lia. reflexivity. }
    destruct (subprocess_run host (nrun s) (fst (spawn' f)) (snd (spawn' f)))
      as [cp|e].
    + destruct (USE_TIMEOUT cfg && (returncode cp =? 124)).
      { cbn [res st log fs nrun List.length]. rewrite Hone.
        repeat split; try lia; destruct (spawn' f); reflexivity. }
      destruct (negb (returncode cp =? 0)).
      { cbn [res st log fs nrun List.length]. rewrite Hone.
        repeat split; try lia; destruct (spawn' f); reflexivity. }
      cbn [res st log].
      destruct (IH (mkSt (fs s) (S (nrun s))) Hrec')
        as (Hfs & Hle & Hlen & Hruns & Hld & Hk).
      cbn [fs nrun] in *. cbn [res st log List.length].
      rewrite runs_of_app, listdirs_of_app, kills_of_app, Hruns, Hld, Hk.
      replace (nrun (st (for_each body l (mkSt (fs s) (S (nrun s)))))
               - nrun s)%nat
        with (S (nrun (st (for_each body l (mkSt (fs s) (S (nrun s)))))
                 - S (nrun s)))%nat by lia.
      repeat split; try lia; try assumption;
        try (cbn [firstn map]; destruct (spawn' f); reflexivity).
    + cbn [res st log fs nrun List.length]. rewrite Hone.
      repeat split; try lia; destruct (spawn' f); reflexivity.
Qed.

(** *** [run_benchmark], statement by statement *)

Lemma run_benchmark_unfold (s : St) :
  run_benchmark host cfg source_folder input_folder output_folder s =
  let mk := makedirs_exist_ok output_folder (fs s) in
  let s1 := mkSt (snd mk) (nrun s) in
  match fst mk with
  | Raise e =>
      mkOut (Raise e) s1 (sweep_log host ++ [EvMakedirs output_folder])
  | Ok _ =>
      match listdir host input_folder with
      | Raise e =>
          mkOut (Raise e) s1
                (head_log host source_folder input_folder output_folder)
      | Ok names =>
          let o := for_each body names s1 in
          mkOut (res o) (st o)
                (head_log host source_folder input_folder output_folder
                   ++ log o)
      end
  end.
Proof.
  cbn zeta.
  set (s1 := mkSt (snd (makedirs_exist_ok output_folder (fs s))) (nrun s)).
  assert (Hmk : os_makedirs output_folder s
                = mkOut (fst (makedirs_exist_ok output_folder (fs s))) s1
                        [EvMakedirs output_folder]).
  { unfold os_makedirs, s1.
    now destruct (makedirs_exist_ok output_folder (fs s)). }
  assert (Hloop :
    (names <- os_listdir host input_folder ;; for_each body names)%py s1
    = match listdir host input_folder with
      | Raise e => mkOut (Raise e) s1 [EvListdir input_folder]
      | Ok names =>
          mkOut (res (for_each body names s1)) (st (for_each body names s1))
                (EvListdir input_folder :: log (for_each body names s1))
      end).
  { rewrite bind_eq. unfold os_listdir. cbn [res st log].
    now destruct (listdir host input_folder). }
  unfold run_benchmark, head_log. fold body.
  rewrite bind_eq, sweep_spec. cbn [res st log]. cbn zeta.
  rewrite bind_eq, Hmk. cbn [res st log].
  destruct (fst (makedirs_exist_ok output_folder (fs s))) as [[]|e];
    [|reflexivity].
  cbn zeta. rewrite bind_eq.
  change (print ("Using JAR: " ^^ jar_path source_folder) s1)
    with (mkOut (Ok tt) s1
                [EvPrint ("Using JAR: " ^^ jar_path source_folder)]).
  cbn [res st log]. cbn zeta. rewrite Hloop.
  destruct (listdir host input_folder) as [names|e]; cbn [res st log];
    rewrite <- ?app_assoc; reflexivity.
Qed.

End RunFacts.

(* ------------------------------------------------------------------ *)
(** ** [os.makedirs] *)

Lemma lookup_snoc (fs0 : FS) (q : string) (k : node) (p : string) :
  lookup (fs0 ++ [(q, k)]) p =
  match lookup fs0 p with
  | Some x => Some x
  | None => if String.eqb q p then Some k else None
  end.
Proof.
  induction fs0 as [|[q' k'] fs0 IH]; cbn [app lookup]; [reflexivity|].
  destruct (String.eqb q' p); [reflexivity | exact IH].
Qed.

Lemma lookup_app_keep (fs0 l : FS) (q : string) (k : node) :
  lookup fs0 q = Some k -> lookup (fs0 ++ l) q = Some k.
Proof.
  induction fs0 as [|[q' k'] fs0 IH]; cbn [app lookup]; [discriminate|].
  destruct (String.eqb q' q); [trivial | exact IH].
Qed.

(** Adding a directory changes no place that was there. *)
Lemma node_at_snoc_keep (fs0 : FS) (q : string) (c : place) (k : node) :
  node_at fs0 c = Some k -> node_at (fs0 ++ [(q, Dir)]) c = Some k.
Proof.
  unfold node_at. destruct (always_there c); [trivial|].
  apply lookup_app_keep.
Qed.

Lemma node_at_snoc_new (fs0 : FS) (c : place) :
  node_at fs0 c = None ->
  node_at (fs0 ++ [(spelling c, Dir)]) c = Some Dir.
Proof.
  unfold node_at. destruct (always_there c); [discriminate|].
  intros H. now rewrite lookup_snoc, H, String.eqb_refl.
Qed.

(** Adding a directory neither makes nor unmakes a regular file. *)
Lemma node_at_snoc_file (fs0 : FS) (q : string) (c : place) :
  node_at (fs0 ++ [(q, Dir)]) c = Some File <-> node_at fs0 c = Some File.
Proof.
  unfold node_at. destruct (always_there c); [tauto|].
  rewrite lookup_snoc. destruct (lookup fs0 (spelling c)) as [k|].
  - tauto.
  - destruct (String.eqb q (spelling c)); split; discriminate.
Qed.

(** [mkdir_walk] keeps every place as it is. *)
Lemma mkdir_walk_keeps (comps : list string) (fs0 : FS) (cur c : place)
      (k : node) :
  node_at fs0 c = Some k ->
  node_at (snd (mkdir_walk fs0 cur comps)) c = Some k.
Proof.
  revert fs0 cur. induction comps as [|x comps IH]; intros fs0 cur H.
  - exact H.
  - cbn [mkdir_walk]. cbn zeta.
    destruct (node_at fs0 (step cur x)) as [[]|].
    + now apply IH.
    + exact H.
    + apply IH. now apply node_at_snoc_keep.
Qed.

(** When [mkdir_walk] does not fail, the walk it made can be walked
    again and ends in a directory. *)
Lemma mkdir_walk_made (comps : list string) (fs0 : FS) (cur : place) :
  node_at fs0 cur = Some Dir ->
  fst (mkdir_walk fs0 cur comps) = Ok tt ->
  exists e,
    resolve (snd (mkdir_walk fs0 cur comps)) cur comps = Some e /\
    node_at (snd (mkdir_walk fs0 cur comps)) e = Some Dir.
Proof.
  revert fs0 cur. induction comps as [|x comps IH]; intros fs0 cur Hcur Hok.
  - exists cur. split; [reflexivity | exact Hcur].
  - cbn [mkdir_walk resolve] in *. cbn zeta in *.
    destruct (node_at fs0 (step cur x)) as [[]|] eqn:Hx.
    + rewrite (mkdir_walk_keeps comps fs0 (step cur x) cur Dir Hcur).
      now apply IH.
    + discriminate.
    + rewrite (mkdir_walk_keeps comps _ (step cur x) cur Dir
                 (node_at_snoc_keep fs0 _ cur Dir Hcur)).
      apply IH; [|exact Hok]. now apply node_at_snoc_new.
Qed.

(** A walk that can already be made to a directory makes [mkdir_walk]
    change nothing. *)
Lemma mkdir_walk_existing (comps : list string) (fs0 : FS) (cur e : place) :
  resolve fs0 cur comps = Some e ->
  node_at fs0 e = Some Dir ->
  mkdir_walk fs0 cur comps = (Ok tt, fs0).
Proof.
  revert cur. induction comps as [|x comps IH]; intros cur Hres He.
  - reflexivity.
  - cbn [resolve] in Hres.
    destruct (node_at fs0 cur) as [[]|]; try discriminate.
    cbn [mkdir_walk]. cbn zeta.
    assert (Hx : node_at fs0 (step cur x) = Some Dir).
    { destruct comps as [|y comps].
      - cbn [resolve] in Hres. now injection Hres as <-.
      - cbn [resolve] in Hres.
        destruct (node_at fs0 (step cur x)) as [[]|];
          [reflexivity | discriminate | discriminate]. }
    rewrite Hx. now apply IH.
Qed.

(** With no regular file on the way, [mkdir_walk] does not fail. *)
Lemma mkdir_walk_unblocked (comps : list string) (fs0 fs1 : FS)
      (cur : place) :
  (forall c, node_at fs1 c = Some File <-> node_at fs0 c = Some File) ->
  blocked fs0 cur comps = false ->
  fst (mkdir_walk fs1 cur comps) = Ok tt.
Proof.
  revert fs1 cur. induction comps as [|x comps IH]; intros fs1 cur Hsame Hb.
  - reflexivity.
  - cbn [blocked mkdir_walk] in *. cbn zeta.
    assert (Hnf : node_at fs0 (step cur x) <> Some File).
    { intros H. rewrite H in Hb. discriminate. }
    assert (Hb' : blocked fs0 (step cur x) comps = false).
    { destruct (node_at fs0 (step cur x)) as [[]|];
        [exact Hb | contradiction | exact Hb]. }
    destruct (node_at fs1 (step cur x)) as [[]|] eqn:Hx.
    + now apply IH.
    + exfalso. apply Hnf. now apply Hsame.
    + apply IH; [|exact Hb'].
      intros c. rewrite node_at_snoc_file. apply Hsame.
Qed.

(** A longer walk goes through the end of a shorter one. *)
Lemma resolve_app (fs0 : FS) (l1 l2 : list string) (cur e : place) :
  resolve fs0 cur (l1 ++ l2) = Some e ->
  exists m, resolve fs0 cur l1 = Some m /\ resolve fs0 m l2 = Some e.
Proof.
  revert cur. induction l1 as [|x l1 IH]; intros cur H.
  - exists cur. split; [reflexivity | exact H].
  - cbn [app resolve] in *.
    destruct (node_at fs0 cur) as [[]|]; try discriminate.
    now apply IH.
Qed.

(** What can be walked stays walkable when places are only added. *)
Lemma resolve_keep (fs0 fs1 : FS) (comps : list string) (cur e : place) :
  (forall c k, node_at fs0 c = Some k -> node_at fs1 c = Some k) ->
  resolve fs0 cur comps = Some e -> resolve fs1 cur comps = Some e.
Proof.
  intros Hkeep. revert cur. induction comps as [|x comps IH]; intros cur H.
  - exact H.
  - cbn [resolve] in *.
    destruct (node_at fs0 cur) as [[]|] eqn:Hc; try discriminate.
    rewrite (Hkeep cur Dir Hc). now apply IH.
Qed.

Lemma node_at_start (fs0 : FS) (p : string) :
  node_at fs0 (start p) = Some Dir.
Proof. reflexivity. Qed.

(** Cutting a path at a slash cuts its components. *)
Lemma split_slash_cut (acc a b : string) :
  split_slash acc (a ^^ String "/" b)
  = split_slash acc a ++ split_slash "" b.
Proof.
  revert acc. induction a as [|c a IH]; intros acc; cbn [append split_slash].
  - reflexivity.
  - destruct (Ascii.eqb c "/"); cbn [app]; now rewrite IH.
Qed.

Lemma components_cut (a b : string) :
  components (a ^^ "/" ^^ b) = components a ++ components b.
Proof.
  unfold components. cbn [append].
  now rewrite split_slash_cut, filter_app.
Qed.

Lemma start_cut (a b : string) : a <> "" -> start (a ^^ b) = start a.
Proof.
  unfold start, PyStr.startswith. destruct a as [|c a]; [congruence|].
  intros _. cbn [append String.prefix].
  destruct (ascii_dec "/" c); [|reflexivity].
  f_equal. destruct (a ^^ b), a; reflexivity.
Qed.

Lemma app_nonempty (a b : string) : a <> "" -> a ^^ b <> "".
Proof. destruct a; [congruence | discriminate]. Qed.

(** What [os.makedirs(p, exist_ok=True)] leaves when it does not raise:
    [p] is a directory, and nothing that was there has changed. *)
Lemma makedirs_spec (p : string) (fs0 : FS) :
  fst (makedirs_exist_ok p fs0) = Ok tt ->
  let fs1 := snd (makedirs_exist_ok p fs0) in
  is_dir fs1 p = true /\
  (forall c k, node_at fs0 c = Some k -> node_at fs1 c = Some k).
Proof.
  unfold makedirs_exist_ok, is_dir, stat.
  destruct (String.eqb p "") eqn:Hp; [discriminate|].
  intros Hok. cbn zeta. split.
  - destruct (mkdir_walk_made (components p) fs0 (start p)
                (node_at_start fs0 p) Hok) as (e & Hres & He).
    now rewrite Hres, He.
  - intros c k. apply mkdir_walk_keeps.
Qed.

(** Every way of cutting at a slash a path that [os.makedirs] has made
    gives a directory. *)
Lemma makedirs_parents (p a b : string) (fs0 : FS) :
  fst (makedirs_exist_ok p fs0) = Ok tt ->
  p = a ^^ "/" ^^ b -> a <> "" ->
  is_dir (snd (makedirs_exist_ok p fs0)) a = true.
Proof.
  unfold makedirs_exist_ok, is_dir, stat.
  destruct (String.eqb p "") eqn:Hp; [discriminate|].
  intros Hok -> Ha.
  destruct (mkdir_walk_made _ fs0 _ (node_at_start fs0 _) Hok)
    as (e & Hres & He).
  rewrite components_cut, start_cut in Hres by exact Ha.
  rewrite components_cut, start_cut in * by exact Ha.
  apply resolve_app in Hres. destruct Hres as (m & Hm & Hrest).
  apply String.eqb_neq in Ha. rewrite Ha, Hm.
  destruct (components b) as [|y l].
  - cbn [resolve] in Hrest. injection Hrest as ->. now rewrite He.
  - cbn [resolve] in Hrest.
    destruct (node_at _ m) as [[]|]; [reflexivity | discriminate..].
Qed.

(** A directory that is there already: [os.makedirs] changes nothing. *)
Lemma makedirs_existing (p : string) (fs0 : FS) :
  is_dir fs0 p = true -> makedirs_exist_ok p fs0 = (Ok tt, fs0).
Proof.
  unfold makedirs_exist_ok, is_dir, stat.
  destruct (String.eqb p ""); [discriminate|].
  destruct (resolve fs0 (start p) (components p)) as [e|] eqn:Hres;
    [|discriminate].
  destruct (node_at fs0 e) as [[]|] eqn:He; try discriminate.
  intros _. exact (mkdir_walk_existing _ fs0 _ e Hres He).
Qed.

(** A path that is not empty and has no regular file on its way can be
    made. *)
Lemma makedirs_succeeds (p : string) (fs0 : FS) :
  p <> "" -> file_in_the_way fs0 p = false ->
  fst (makedirs_exist_ok p fs0) = Ok tt.
Proof.
  intros Hp Hb. unfold makedirs_exist_ok.
  apply String.eqb_neq in Hp. rewrite Hp.
  apply (mkdir_walk_unblocked _ fs0 fs0); [tauto | exact Hb].
Qed.

(** What a path named stays what it names. *)
Lemma makedirs_keeps_stat (p q : string) (fs0 : FS) (k : node) :
  stat fs0 q = Some k -> stat (snd (makedirs_exist_ok p fs0)) q = Some k.
Proof.
  assert (Hkeep : forall c k', node_at fs0 c = Some k' ->
                    node_at (snd (makedirs_exist_ok p fs0)) c = Some k').
  { unfold makedirs_exist_ok. destruct (String.eqb p ""); [trivial|].
    intros c k'. apply mkdir_walk_keeps. }
  unfold stat. destruct (String.eqb q ""); [trivial|].
  destruct (resolve fs0 (start q) (components q)) as [e|] eqn:Hres;
    [|discriminate].
  intros He. rewrite (resolve_keep fs0 _ _ _ e Hkeep Hres).
  now apply Hkeep.
Qed.

(** [mkdir_walk] fails only for a regular file on the way. *)
Lemma mkdir_walk_ok_unblocked (comps : list string) (fs0 fs1 : FS)
      (cur : place) :
  (forall c, node_at fs1 c = Some File <-> node_at fs0 c = Some File) ->
  fst (mkdir_walk fs1 cur comps) = Ok tt ->
  blocked fs0 cur comps = false.
Proof.
  revert fs1 cur. induction comps as [|x comps IH]; intros fs1 cur Hsame Hok.
  - reflexivity.
  - cbn [blocked mkdir_walk] in *. cbn zeta in Hok.
    destruct (node_at fs1 (step cur x)) as [[]|] eqn:Hx.
    + assert (Hb : blocked fs0 (step cur x) comps = false)
        by (eapply IH; eauto).
      destruct (node_at fs0 (step cur x)) as [[]|] eqn:H0;
        [exact Hb | | exact Hb].
      apply Hsame in H0. congruence.
    + discriminate.
    + assert (Hb : blocked fs0 (step cur x) comps = false).
      { eapply IH; [|exact Hok].
        intros c. rewrite node_at_snoc_file. apply Hsame. }
      destruct (node_at fs0 (step cur x)) as [[]|] eqn:H0;
        [exact Hb | | exact Hb].
      apply Hsame in H0. congruence.
Qed.

(** [os.makedirs(p, exist_ok=True)] goes through exactly when [p] is not
    the empty path and none of its components names a regular file. *)
Lemma makedirs_ok_iff (p : string) (fs0 : FS) :
  fst (makedirs_exist_ok p fs0) = Ok tt
  <-> p <> "" /\ file_in_the_way fs0 p = false.
Proof.
  split.
  - unfold makedirs_exist_ok, file_in_the_way.
    destruct (String.eqb p "") eqn:Hp; [discriminate|].
    intros Hok. split; [now apply String.eqb_neq|].
    apply (mkdir_walk_ok_unblocked _ fs0 fs0); [tauto | exact Hok].
  - intros [Hp Hb]. now apply makedirs_succeeds.
Qed.

(* ------------------------------------------------------------------ *)
(** ** Whole runs of [run_benchmark] *)

Section WholeRuns.
Variable host : Host.
Variable cfg : Toggles.
Variables source_folder input_folder output_folder : string.
Variable s : St.
Variable names : list string.

Let spawn' := spawn host cfg source_folder input_folder output_folder.
Let events := run_events host cfg source_folder input_folder output_folder.
Let head := head_log host source_folder input_folder output_folder.
Let fs1 := snd (makedirs_exist_ok output_folder (fs s)).

Hypothesis makedirs_ok : fst (makedirs_exist_ok output_folder (fs s)) = Ok tt.
Hypothesis listing : listdir host input_folder = Ok names.

Lemma runs_of_events (l : list string) :
  runs_of (flat_map events l) = map spawn' l.
Proof.
  induction l as [|f l IH]; [reflexivity|].
  cbn [flat_map map]. rewrite runs_of_app, IH.
  unfold events, run_events. cbn [runs_of app].
  fold spawn'. now destruct (spawn' f).
Qed.

Lemma runs_of_head : runs_of head = [].
Proof.
  unfold head, head_log. now rewrite runs_of_app, runs_of_sweep.
Qed.

(** Every child exits with status 0: the run ends normally, having
    started one child for each recognized entry. *)
Lemma run_benchmark_all_ok :
  all_exit_zero host cfg source_folder input_folder output_folder
                (nrun s) (filter recognized names) = true ->
  run_benchmark host cfg source_folder input_folder output_folder s
  = mkOut (Ok tt)
          (mkSt fs1 (nrun s + List.length (filter recognized names)))
          (head ++ flat_map events (filter recognized names)).
Proof.
  intros Hok. rewrite run_benchmark_unfold. cbn zeta.
  rewrite makedirs_ok, listing, loop_filter.
  rewrite <- (app_nil_r (filter recognized names)) at 1 2 3.
  rewrite loop_prefix_ok;
    [| apply filter_recognized | exact Hok].
  cbn [fs nrun for_each ret res st log]. cbn zeta.
  now rewrite !app_nil_r.
Qed.

(** The child of [f] is the first to exit with a status other than 0:
    the run stops there. *)
Lemma run_benchmark_first_failure
      (pre post : list string) (f : string) (cp : CompletedProcess) :
  filter recognized names = pre ++ f :: post ->
  all_exit_zero host cfg source_folder input_folder output_folder
                (nrun s) pre = true ->
  subprocess_run host (nrun s + List.length pre)
                 (fst (spawn' f)) (snd (spawn' f)) = Ok cp ->
  returncode cp <> 0 ->
  run_benchmark host cfg source_folder input_folder output_folder s
  = if USE_TIMEOUT cfg && (returncode cp =? 124) then
      mkOut (Raise (TimeoutError
                      ("Execution timed out after 605s for "
                         ^^ input_file input_folder f)))
            (mkSt fs1 (S (nrun s + List.length pre)))
            (head ++ flat_map events pre ++ events f ++
             [EvPrint ("Execution timed out after 605s for "
                         ^^ input_file input_folder f)])
    else
      mkOut (Raise (RuntimeError
                      ("Execution failed for " ^^ input_file input_folder f
                         ^^ ": " ^^ stderr cp)))
            (mkSt fs1 (S (nrun s + List.length pre)))
            (head ++ flat_map events pre ++ events f ++
             [EvPrint ("Execution failed for "
                         ^^ input_file input_folder f ^^ ":");
              EvPrint (stderr cp)]).
Proof.
  intros Hsplit Hpre Hrun Hrc.
  pose proof (filter_recognized names) as Hrec.
  rewrite Hsplit in Hrec. apply Forall_app in Hrec.
  destruct Hrec as [Hrec_pre Hrec_f].
  inversion Hrec_f as [|? ? Hf _]; subst.
  rewrite run_benchmark_unfold. cbn zeta.
  rewrite makedirs_ok, listing, loop_filter, Hsplit.
  rewrite loop_prefix_ok by assumption.
  cbn [fs nrun]. cbn zeta.
  rewrite for_each_cons, run_one_recognized by exact Hf.
  cbn [fs nrun]. cbn zeta. fold spawn'. rewrite Hrun.
  fold events. fold fs1.
  destruct (USE_TIMEOUT cfg && (returncode cp =? 124)).
  - reflexivity.
  - assert (negb (returncode cp =? 0) = true) as ->
      by (apply negb_true_iff, Z.eqb_neq; exact Hrc).
    reflexivity.
Qed.

End WholeRuns.

(* ================================================================== *)
(** * The claims *)

(** C1.  When the child of a recognized entry is the first to exit with a
    status other than 0 and that status is 124, [run_benchmark] raises
    [TimeoutError] with the message naming [605s] and the input path if
    [USE_TIMEOUT] is set, and the generic [RuntimeError] with the captured
    error text if it is not; in both cases no child is started for a later
    entry.  For any child, the exit check raises [TimeoutError] exactly
    when [USE_TIMEOUT] is set and the status is 124. *)
Theorem C1_status_124_timeout_iff_enabled
  (host : Host) (cfg : Toggles) (src inp out : string) (s : St)
  (names pre post : list string) (f : string) (cp : CompletedProcess) :
  fst (makedirs_exist_ok out (fs s)) = Ok tt ->
  listdir host inp = Ok names ->
  filter recognized names = pre ++ f :: post ->
  all_exit_zero host cfg src inp out (nrun s) pre = true ->
  subprocess_run host (nrun s + List.length pre)
                 (fst (spawn host cfg src inp out f))
                 (snd (spawn host cfg src inp out f)) = Ok cp ->
  returncode cp = 124 ->
  let o := run_benchmark host cfg src inp out s in
  res o = Raise (if USE_TIMEOUT cfg
                 then TimeoutError ("Execution timed out after 605s for "
                                      ^^ input_file inp f)
                 else RuntimeError ("Execution failed for "
                                      ^^ input_file inp f ^^ ": "
                                      ^^ stderr cp)) /\
  runs_of (log o) = map (spawn host cfg src inp out) (pre ++ [f]) /\
  nrun (st o) = (nrun s + List.length pre + 1)%nat /\
  (forall (path : string) (cp' : CompletedProcess) (s' : St),
      (exists msg, res (check_exit cfg path cp' s') = Raise (TimeoutError msg))
      <-> USE_TIMEOUT cfg = true /\ returncode cp' = 124).
Proof.
  intros Hmk Hls Hsplit Hpre Hrun Hrc. cbn zeta.
  assert (Hnz : returncode cp <> 0) by (rewrite Hrc; discriminate).
  rewrite (run_benchmark_first_failure host cfg src inp out s names
             Hmk Hls pre post f cp Hsplit Hpre Hrun Hnz).
  rewrite Hrc. change (124 =? 124) with true. rewrite andb_true_r.
  split; [|split; [|split]].
  - destruct (USE_TIMEOUT cfg); reflexivity.
  - destruct (USE_TIMEOUT cfg); cbn [log];
      rewrite !runs_of_app, runs_of_head, runs_of_events, map_app;
      cbn [app map]; unfold run_events; cbn [runs_of];
      rewrite app_nil_r; now destruct (spawn host cfg src inp out f).
  - destruct (USE_TIMEOUT cfg); cbn [st nrun]; lia.
  - intros path cp' s'. unfold check_exit.
    rewrite bind_eq.
    destruct (USE_TIMEOUT cfg) eqn:Ht; cbn [andb].
    + destruct (returncode cp' =? 124) eqn:E.
      * apply Z.eqb_eq in E. split; [auto|]. intros _. cbv. eauto.
      * apply Z.eqb_neq in E. cbn [ret res st log]. cbn zeta.
        split; [|intros [_ H]; contradiction].
        intros [msg H]. exfalso.
        destruct (negb (returncode cp' =? 0)); cbn in H; discriminate.
    + cbn [ret res st log]. cbn zeta.
      split; [|intros [H _]; discriminate].
      intros [msg H]. exfalso.
      destruct (negb (returncode cp' =? 0)); cbn in H; discriminate.
Qed.

(** C1 at work: five inputs, timeouts enabled, the third child exits
    with 124. *)
Lemma C1_witness_third_child_times_out :
  res (run_benchmark (Scenario.third_fails 124) Scenario.timeout_on
                     "/w" "/w/in" "/w/out" Scenario.st0)
  = Raise (TimeoutError "Execution timed out after 605s for /w/in/c.txt").
Proof.
  exact (proj1 (C1_status_124_timeout_iff_enabled
                  (Scenario.third_fails 124) Scenario.timeout_on
                  "/w" "/w/in" "/w/out" Scenario.st0
                  Scenario.five_inputs ["a.txt"; "b.txt"] ["d.txt"; "e.txt"]
                  "c.txt" (mkCompleted 124 "solver crashed")
                  eq_refl eq_refl eq_refl eq_refl eq_refl eq_refl)).
Defined.

(** The same run with the toggles of the file ([USE_TIMEOUT = False]):
    status 124 is an ordinary failure. *)
Example status_124_with_timeout_disabled :
  res (run_benchmark (Scenario.third_fails 124) source_toggles
                     "/w" "/w/in" "/w/out" Scenario.st0)
  = Raise (RuntimeError "Execution failed for /w/in/c.txt: solver crashed").
Proof. vm_compute. reflexivity. Qed.

(** C2.  When the child of a recognized entry is the first to exit with a
    status other than 0 that is not classified as a timeout,
    [run_benchmark] raises [RuntimeError] with the input path and the
    captured error text.  The log is exactly: the preamble, one "Running"
    line and one child per entry up to and including the failing one, and
    the two failure lines; so no later entry gets a child, no child is
    started twice, and nothing is counted or summarised. *)
Theorem C2_first_failing_child_halts_run
  (host : Host) (cfg : Toggles) (src inp out : string) (s : St)
  (names pre post : list string) (f : string) (cp : CompletedProcess) :
  fst (makedirs_exist_ok out (fs s)) = Ok tt ->
  listdir host inp = Ok names ->
  filter recognized names = pre ++ f :: post ->
  all_exit_zero host cfg src inp out (nrun s) pre = true ->
  subprocess_run host (nrun s + List.length pre)
                 (fst (spawn host cfg src inp out f))
                 (snd (spawn host cfg src inp out f)) = Ok cp ->
  returncode cp <> 0 ->
  USE_TIMEOUT cfg && (returncode cp =? 124) = false ->
  let o := run_benchmark host cfg src inp out s in
  res o = Raise (RuntimeError ("Execution failed for " ^^ input_file inp f
                                 ^^ ": " ^^ stderr cp)) /\
  log o = head_log host src inp out
          ++ flat_map (run_events host cfg src inp out) (pre ++ [f])
          ++ [EvPrint ("Execution failed for " ^^ input_file inp f ^^ ":");
              EvPrint (stderr cp)] /\
  runs_of (log o) = map (spawn host cfg src inp out) (pre ++ [f]) /\
  nrun (st o) = (nrun s + List.length pre + 1)%nat.
Proof.
  intros Hmk Hls Hsplit Hpre Hrun Hnz Hnt. cbn zeta.
  rewrite (run_benchmark_first_failure host cfg src inp out s names
             Hmk Hls pre post f cp Hsplit Hpre Hrun Hnz).
  rewrite Hnt. cbn [res st log nrun].
  assert (Hlog :
    head_log host src inp out
      ++ flat_map (run_events host cfg src inp out) pre
      ++ run_events host cfg src inp out f
      ++ [EvPrint ("Execution failed for " ^^ input_file inp f ^^ ":");
          EvPrint (stderr cp)]
    = head_log host src inp out
      ++ flat_map (run_events host cfg src inp out) (pre ++ [f])
      ++ [EvPrint ("Execution failed for " ^^ input_file inp f ^^ ":");
          EvPrint (stderr cp)]).
  { rewrite flat_map_app. cbn [flat_map]. rewrite app_nil_r.
    now rewrite <- !app_assoc. }
  rewrite Hlog. repeat split.
  - rewrite !runs_of_app, runs_of_head, runs_of_events.
    cbn [runs_of app]. now rewrite app_nil_r.
  - lia.
Qed.

(** C2 at work: the third of five children exits with status 1; the
    fourth and fifth are never started. *)
Lemma C2_witness_third_of_five_fails :
  let o := run_benchmark (Scenario.third_fails 1) source_toggles
                         "/w" "/w/in" "/w/out" Scenario.st0 in
  res o = Raise (RuntimeError
                   "Execution failed for /w/in/c.txt: solver crashed") /\
  map (fun r => nth 6 (fst r) "") (runs_of (log o))
  = ["/w/in/a.txt"; "/w/in/b.txt"; "/w/in/c.txt"].
Proof.
  pose proof (C2_first_failing_child_halts_run
                (Scenario.third_fails 1) source_toggles
                "/w" "/w/in" "/w/out" Scenario.st0
                Scenario.five_inputs ["a.txt"; "b.txt"] ["d.txt"; "e.txt"]
                "c.txt" (mkCompleted 1 "solver crashed")
                eq_refl eq_refl eq_refl eq_refl eq_refl
                ltac:(discriminate) eq_refl) as H.
  cbn zeta in H. destruct H as (Hres & _ & Hruns & _).
  cbn zeta. split; [exact Hres|].
  rewrite Hruns. reflexivity.
Defined.

(** C4.  [compile_code] returns whether Maven's exit status is 0.  When it
    is not, [compile_code] prints the captured error stream and returns
    [False], and the script ends there: its log is that of the build
    alone, so [run_benchmark] is not entered and no child is started. *)
Theorem C4_build_failure_stops_before_run
  (host : Host) (cfg : Toggles) (argv : list string) (s : St)
  (cp : CompletedProcess) :
  List.length argv = 4%nat ->
  subprocess_run host (nrun s) ["mvn"; "clean"; "package"]
                 (compile_opts (abspath host (nth 1 argv ""))) = Ok cp ->
  returncode cp <> 0 ->
  let src := abspath host (nth 1 argv "") in
  let build_log :=
    [EvPrint ("Compiling code in " ^^ src ^^ "...");
     EvRun ["mvn"; "clean"; "package"] (mkRunOpts true true true src);
     EvPrint "Maven compilation failed:";
     EvPrint (stderr cp)] in
  compile_code host src s
  = mkOut (Ok false) (mkSt (fs s) (S (nrun s))) build_log /\
  main host cfg argv s
  = mkOut (Ok tt) (mkSt (fs s) (S (nrun s))) build_log /\
  runs_of (log (main host cfg argv s))
  = [(["mvn"; "clean"; "package"], mkRunOpts true true true src)] /\
  (forall s' : St,
      res (compile_code host src s')
      = match subprocess_run host (nrun s') ["mvn"; "clean"; "package"]
                             (compile_opts src) with
        | Ok cp' => Ok (returncode cp' =? 0)
        | Raise e => Raise e
        end).
Proof.
  intros Hlen Hrun Hrc. cbn zeta.
  assert (Hc : compile_code host (abspath host (nth 1 argv "")) s
               = mkOut (Ok false) (mkSt (fs s) (S (nrun s)))
                   [EvPrint ("Compiling code in "
                               ^^ abspath host (nth 1 argv "") ^^ "...");
                    EvRun ["mvn"; "clean"; "package"]
                          (mkRunOpts true true true
                                     (abspath host (nth 1 argv "")));
                    EvPrint "Maven compilation failed:";
                    EvPrint (stderr cp)]).
  { unfold compile_code, bind, print, emit, run_process, ret.
    cbn [res st log fs nrun]. rewrite Hrun. cbn [res st log fs nrun].
    apply Z.eqb_neq in Hrc. rewrite Hrc. reflexivity. }
  assert (Hm : main host cfg argv s
               = mkOut (Ok tt) (mkSt (fs s) (S (nrun s)))
                   [EvPrint ("Compiling code in "
                               ^^ abspath host (nth 1 argv "") ^^ "...");
                    EvRun ["mvn"; "clean"; "package"]
                          (mkRunOpts true true true
                                     (abspath host (nth 1 argv "")));
                    EvPrint "Maven compilation failed:";
                    EvPrint (stderr cp)]).
  { unfold main. rewrite Hlen. cbn [Nat.eqb negb].
    rewrite bind_eq, Hc. cbn [res st log ret]. cbn zeta.
    now rewrite app_nil_r. }
  rewrite Hm, Hc.
  repeat split.
  intros s'. unfold compile_code, bind, print, emit, run_process, ret.
  cbn [res st log fs nrun].
  destruct (subprocess_run host (nrun s') _ _) as [cp'|e];
    cbn [res st log fs nrun]; [|reflexivity].
  destruct (returncode cp' =? 0); reflexivity.
Qed.

(** C4 at work: Maven exits with 1 and nothing else is started. *)
Lemma C4_witness_maven_fails :
  main Scenario.build_fails source_toggles
       ["run_challenge.py"; "/w"; "/w/in"; "/w/out"] Scenario.st0
  = mkOut (Ok tt) (mkSt [("/w", Dir)] 1)
          [EvPrint "Compiling code in /w...";
           EvRun ["mvn"; "clean"; "package"] (mkRunOpts true true true "/w");
           EvPrint "Maven compilation failed:";
           EvPrint "BUILD FAILURE"].
Proof.
  exact (proj1 (proj2 (C4_build_failure_stops_before_run
                         Scenario.build_fails source_toggles
                         ["run_challenge.py"; "/w"; "/w/in"; "/w/out"]
                         Scenario.st0 (mkCompleted 1 "BUILD FAILURE")
                         eq_refl eq_refl ltac:(discriminate)))).
Defined.

Lemma filter_none (names : list string) :
  forallb (fun f => negb (recognized f)) names = true ->
  filter recognized names = [].
Proof.
  induction names as [|f names IH]; cbn [forallb filter]; [reflexivity|].
  intros H. apply andb_true_iff in H. destruct H as [Hf H].
  apply negb_true_iff in Hf. rewrite Hf. now apply IH.
Qed.

(** C10.  When no entry of the input directory ends in [.txt] (an empty
    directory included) and the output directory can be made,
    [run_benchmark] returns normally: it has swept the process table,
    made the output directory and listed the input directory, and it has
    started no child. *)
Theorem C10_no_recognized_entry_no_child
  (host : Host) (cfg : Toggles) (src inp out : string) (s : St)
  (names : list string) :
  fst (makedirs_exist_ok out (fs s)) = Ok tt ->
  listdir host inp = Ok names ->
  forallb (fun f => negb (PyStr.endswith f ".txt")) names = true ->
  let o := run_benchmark host cfg src inp out s in
  res o = Ok tt /\
  log o = sweep_log host
          ++ [EvMakedirs out;
              EvPrint ("Using JAR: " ^^ jar_path src);
              EvListdir inp] /\
  runs_of (log o) = [] /\
  nrun (st o) = nrun s /\
  kills_of (log o) = map pid (filter is_stale (process_iter host)) /\
  is_dir (fs (st o)) out = true.
Proof.
  intros Hmk Hls Hnone. cbn zeta.
  pose proof (filter_none names Hnone) as Hf.
  rewrite (run_benchmark_all_ok host cfg src inp out s names Hmk Hls)
    by (rewrite Hf; reflexivity).
  rewrite Hf. cbn [flat_map List.length res st log fs nrun].
  rewrite app_nil_r, Nat.add_0_r.
  fold (head_log host src inp out).
  repeat split.
  - apply runs_of_head.
  - unfold head_log. rewrite kills_of_app, kills_of_sweep.
    cbn [kills_of]. now rewrite app_nil_r.
  - exact (proj1 (makedirs_spec out (fs s) Hmk)).
Qed.

(** C10 at work: a directory holding [notes.md], [data.csv] and [txt]. *)
Lemma C10_witness_nothing_to_run :
  let o := run_benchmark Scenario.nothing_to_run source_toggles
                         "/w" "/w/in" "/w/out" Scenario.st0 in
  res o = Ok tt /\ runs_of (log o) = [] /\
  kills_of (log o) = [41; 44] /\
  fs (st o) = [("/w", Dir); ("/w/out", Dir)].
Proof.
  pose proof (C10_no_recognized_entry_no_child
                Scenario.nothing_to_run source_toggles
                "/w" "/w/in" "/w/out" Scenario.st0
                ["notes.md"; "data.csv"; "txt"]
                eq_refl eq_refl eq_refl) as H.
  cbn zeta in H. destruct H as (Hres & _ & Hruns & _ & Hk & _).
  cbn zeta.
  split; [exact Hres|]. split; [exact Hruns|]. split; [exact Hk|].
  vm_compute. reflexivity.
Defined.

Lemma in_firstn {A} (n : nat) (l : list A) (x : A) :
  In x (firstn n l) -> In x l.
Proof.
  intros H. rewrite <- (firstn_skipn n l). apply in_or_app. now left.
Qed.

(** What holds of every run of [run_benchmark], whatever the host does. *)
Lemma run_benchmark_general
  (host : Host) (cfg : Toggles) (src inp out : string) (s : St) :
  let o := run_benchmark host cfg src inp out s in
  let names := match listdir host inp with Ok l => l | Raise _ => [] end in
  runs_of (log o)
  = map (spawn host cfg src inp out)
        (firstn (nrun (st o) - nrun s) (filter recognized names)) /\
  listdirs_of (log o)
  = match fst (makedirs_exist_ok out (fs s)) with
    | Ok _ => [inp]
    | Raise _ => []
    end /\
  fs (st o) = snd (makedirs_exist_ok out (fs s)) /\
  (exists rest,
      log o = sweep_log host ++ EvMakedirs out :: rest /\
      match fst (makedirs_exist_ok out (fs s)) with
      | Ok _ => True
      | Raise e => rest = [] /\ res o = Raise e
      end).
Proof.
  cbn zeta. rewrite run_benchmark_unfold. cbn zeta.
  destruct (fst (makedirs_exist_ok out (fs s))) as [[]|e].
  - destruct (listdir host inp) as [names|e].
    + destruct (loop_general host cfg src inp out names
                  (mkSt (snd (makedirs_exist_ok out (fs s))) (nrun s)))
        as (Hfs & Hle & Hlen & Hruns & Hld & Hk).
      cbn [fs nrun] in *. cbn [res st log].
      rewrite runs_of_app, runs_of_head, listdirs_of_app, Hld, Hruns.
      unfold head_log.
      rewrite listdirs_of_app, listdirs_of_sweep. cbn [listdirs_of app].
      repeat split; try assumption.
      eexists. split; [|exact I]. rewrite <- app_assoc. reflexivity.
    + cbn [res st log fs nrun]. rewrite Nat.sub_diag, runs_of_head.
      unfold head_log.
      rewrite listdirs_of_app, listdirs_of_sweep. cbn [listdirs_of app].
      repeat split. eexists. split; [|exact I]. reflexivity.
  - cbn [res st log fs nrun].
    rewrite Nat.sub_diag, runs_of_app, runs_of_sweep,
            listdirs_of_app, listdirs_of_sweep.
    destruct (listdir host inp); repeat split; eexists; repeat split.
Qed.

(** C5.  The children [run_benchmark] starts are exactly those of an
    initial segment of the entries of [os.listdir(input_folder)] whose
    name ends in [.txt], one child each, in listing order; an entry with
    another name changes neither the state nor the log.  The input
    directory is the only directory listed, and it is listed once: what
    lies below it is never looked at. *)
Theorem C5_only_txt_entries_get_a_child
  (host : Host) (cfg : Toggles) (src inp out : string) (s : St) :
  let o := run_benchmark host cfg src inp out s in
  let names := match listdir host inp with Ok l => l | Raise _ => [] end in
  runs_of (log o)
  = map (spawn host cfg src inp out)
        (firstn (nrun (st o) - nrun s)
                (filter (fun f => PyStr.endswith f ".txt") names)) /\
  (forall c ro, In (c, ro) (runs_of (log o)) ->
     exists f, In f names /\ PyStr.endswith f ".txt" = true /\
               (c, ro) = spawn host cfg src inp out f) /\
  (forall f s', PyStr.endswith f ".txt" = false ->
     run_one host cfg src inp out f s' = mkOut (Ok tt) s' []) /\
  listdirs_of (log o)
  = match fst (makedirs_exist_ok out (fs s)) with
    | Ok _ => [inp]
    | Raise _ => []
    end.
Proof.
  cbn zeta.
  destruct (run_benchmark_general host cfg src inp out s)
    as (Hruns & Hld & _ & _).
  cbn zeta in Hruns.
  split; [exact Hruns|]. split; [|split; [|exact Hld]].
  - intros c ro Hin. rewrite Hruns in Hin.
    apply in_map_iff in Hin. destruct Hin as (f & Hf & Hin).
    apply in_firstn in Hin. apply filter_In in Hin.
    destruct Hin as [Hin Hrec]. exists f. auto.
  - intros f s' Hf. now apply run_one_skip.
Qed.




(** C8.  Right after the sweep, which starts no child, [run_benchmark]
    calls [os.makedirs(output_folder, exist_ok=True)] on the file system
    as it found it.  The call goes through exactly when the output folder
    is not the empty path and no component of it names a regular file.
    When it goes through, the output folder is a directory, and so is
    every parent obtained by cutting its path at a slash, whether they
    were there or had to be made; the loop that starts the children
    begins in the state this call left, after it in the log.  When it
    raises, the run ends with that exception and no child is started.
    Nothing that was there is changed, and an output folder that was
    already a directory leaves the file system as it was. *)
Theorem C8_output_folder_made_before_children
  (host : Host) (cfg : Toggles) (src inp out : string) (s : St) :
  let o := run_benchmark host cfg src inp out s in
  let mk := makedirs_exist_ok out (fs s) in
  let before_loop :=
    sweep_log host
    ++ [EvMakedirs out; EvPrint ("Using JAR: " ^^ jar_path src);
        EvListdir inp] in
  runs_of (sweep_log host) = [] /\
  (fst mk = Ok tt <-> out <> "" /\ file_in_the_way (fs s) out = false) /\
  match fst mk with
  | Raise e =>
      o = mkOut (Raise e) (mkSt (snd mk) (nrun s))
                (sweep_log host ++ [EvMakedirs out])
  | Ok _ =>
      is_dir (snd mk) out = true /\
      (forall a b, out = a ^^ "/" ^^ b -> a <> "" ->
                   is_dir (snd mk) a = true) /\
      match listdir host inp with
      | Raise e => o = mkOut (Raise e) (mkSt (snd mk) (nrun s)) before_loop
      | Ok names =>
          let o' := for_each (run_one host cfg src inp out) names
                             (mkSt (snd mk) (nrun s)) in
          o = mkOut (res o') (st o') (before_loop ++ log o')
      end
  end /\
  (forall q k, stat (fs s) q = Some k -> stat (snd mk) q = Some k) /\
  (is_dir (fs s) out = true -> mk = (Ok tt, fs s)).
Proof.
  cbn zeta.
  split; [apply runs_of_sweep|].
  split; [apply makedirs_ok_iff|].
  split; [|split].
  - rewrite run_benchmark_unfold. cbn zeta. unfold head_log.
    destruct (fst (makedirs_exist_ok out (fs s))) as [[]|e] eqn:Hmk.
    + split; [exact (proj1 (makedirs_spec out (fs s) Hmk))|].
      split; [intros a b; now apply makedirs_parents|].
      destruct (listdir host inp); reflexivity.
    + reflexivity.
  - intros q k. apply makedirs_keeps_stat.
  - apply makedirs_existing.
Qed.

(** C8 at work: the output folder and its parent are both missing; both
    are made, and only they. *)
Lemma C8_witness_two_levels_missing :
  let mk := makedirs_exist_ok "/w/results/run1" [("/w", Dir)] in
  is_dir [("/w", Dir)] "/w/results" = false /\
  fst mk = Ok tt /\
  snd mk = [("/w", Dir); ("/w/results", Dir); ("/w/results/run1", Dir)] /\
  is_dir (snd mk) "/w/results/run1" = true /\
  is_dir (snd mk) "/w/results" = true /\
  runs_of (log (run_benchmark Scenario.nothing_to_run source_toggles
                              "/w" "/w/in" "/w/results/run1" Scenario.st0))
  = [].
Proof.
  pose proof (C8_output_folder_made_before_children
                Scenario.nothing_to_run source_toggles
                "/w" "/w/in" "/w/results/run1" Scenario.st0) as H.
  cbn zeta in H. destruct H as (_ & Hiff & Hrun & _ & _).
  change (fs Scenario.st0) with [("/w", Dir)] in *.
  assert (Hok : fst (makedirs_exist_ok "/w/results/run1" [("/w", Dir)])
                = Ok tt).
  { apply Hiff. split; [discriminate | reflexivity]. }
  rewrite Hok in Hrun. destruct Hrun as (Hdir & Hparents & Hloop).
  cbn zeta.
  split; [reflexivity|]. split; [exact Hok|]. split; [reflexivity|].
  split; [exact Hdir|].
  split; [exact (Hparents "/w/results" "run1" eq_refl ltac:(discriminate))|].
  cbn [Scenario.nothing_to_run listdir] in Hloop. cbn zeta in Hloop.
  rewrite Hloop. reflexivity.
Defined.

(** The same call on other spellings and on the empty path. *)
Example makedirs_spellings_and_empty_path :
  makedirs_exist_ok "/w//out/" [("/w", Dir)]
  = (Ok tt, [("/w", Dir); ("/w/out", Dir)]) /\
  makedirs_exist_ok "/w/./out" [("/w", Dir); ("/w/out", Dir)]
  = (Ok tt, [("/w", Dir); ("/w/out", Dir)]) /\
  makedirs_exist_ok "" [("/w", Dir)]
  = (Raise (OSError "[Errno 2] No such file or directory: ''"),
     [("/w", Dir)]) /\
  makedirs_exist_ok "/w/out/x" [("/w", Dir); ("/w/out", File)]
  = (Raise (OSError "[Errno 20] Not a directory: '/w/out/x'"),
     [("/w", Dir); ("/w/out", File)]).
Proof. repeat split. Qed.

(** C9.  The sweep always returns normally and leaves the state as it
    was.  Each process whose joined command line contains the jar's name
    gets one "Killing" line and one [kill()] call, in table order; a
    [kill()] that raises adds one "Failed to kill" line and the sweep goes
    on with the next process.  In [run_benchmark] the sweep is always
    followed by the creation of the output folder. *)
Theorem C9_sweep_is_total_and_best_effort (host : Host) (s : St) :
  let o := kill_existing_java_instances host s in
  res o = Ok tt /\
  st o = s /\
  log o = flat_map sweep_events (process_iter host) /\
  kills_of (log o) = map pid (filter is_stale (process_iter host)) /\
  (forall p,
      is_stale p = true <->
      exists c, cmdline p = Some c /\ c <> [] /\
                PyStr.contains "ChallengeSBPO2025-1.0.jar"
                               (PyStr.join " " c) = true) /\
  (forall p msg,
      is_stale p = true -> kill_error p = Some msg ->
      sweep_events p
      = [EvPrint ("Killing stale Java process: PID "
                    ^^ PyStr.str_of_int (pid p));
         EvKill (pid p);
         EvPrint ("Failed to kill process " ^^ PyStr.str_of_int (pid p)
                    ^^ ": " ^^ msg)]) /\
  (forall cfg src inp out, exists rest,
      log (run_benchmark host cfg src inp out s)
      = log o ++ EvMakedirs out :: rest).
Proof.
  cbn zeta. rewrite sweep_spec. cbn [res st log].
  split; [reflexivity|]. split; [reflexivity|]. split; [reflexivity|].
  split; [apply kills_of_sweep|]. split; [|split].
  - intros p. unfold is_stale. destruct (cmdline p) as [[|a c]|].
    + split; [discriminate|]. intros (c & Hc & Hne & _). congruence.
    + split.
      * intros H. exists (a :: c). repeat split; [discriminate | exact H].
      * intros (c' & Hc & _ & H). inversion Hc; subst. exact H.
    + split; [discriminate|]. intros (c & Hc & _). discriminate.
  - intros p msg Hp Hk. unfold sweep_events. now rewrite Hp, Hk.
  - intros cfg src inp out.
    destruct (run_benchmark_general host cfg src inp out s)
      as (_ & _ & _ & rest & Hlog & _).
    now exists rest.
Qed.

(** C3, as the specification words it, fails on the toggles of the file:
    with both libraries enabled the OR-tools location comes first, although
    CPLEX is the library the configuration names first. *)
Lemma C3_counterexample_both_enabled :
  libraries source_toggles (Some "/home/user")
  = Some "/home/user/Documents/or-tools/build/lib/:/home/user/CPLEX_Studio2211/opl/bin/arm64_osx/" /\
  spec_libraries source_toggles (Some "/home/user")
  = Some "/home/user/CPLEX_Studio2211/opl/bin/arm64_osx/:/home/user/Documents/or-tools/build/lib/" /\
  libraries source_toggles (Some "/home/user")
  <> spec_libraries source_toggles (Some "/home/user").
Proof.
  split; [reflexivity|]. split; [reflexivity|]. vm_compute. discriminate.
Qed.

(** C3, amended.  The library path is: nothing when no library is
    enabled; the location of the one enabled library when exactly one is;
    and, when both are, the OR-tools location, a colon, and the CPLEX
    location.  It agrees with the specification's wording except when
    both are enabled. *)
Theorem C3_library_path_by_combination (HOME : option string) (t : bool) :
  libraries (mkToggles false false t) HOME = None /\
  libraries (mkToggles true false t) HOME = Some (CPLEX_PATH HOME) /\
  libraries (mkToggles false true t) HOME = Some (OR_TOOLS_PATH HOME) /\
  libraries (mkToggles true true t) HOME
  = Some (OR_TOOLS_PATH HOME ^^ ":" ^^ CPLEX_PATH HOME) /\
  (forall h,
      CPLEX_PATH (Some h) = h ^^ "/CPLEX_Studio2211/opl/bin/arm64_osx/" /\
      OR_TOOLS_PATH (Some h) = h ^^ "/Documents/or-tools/build/lib/") /\
  (forall cfg,
      libraries cfg HOME = spec_libraries cfg HOME
      \/ (USE_CPLEX cfg = true /\ USE_OR_TOOLS cfg = true)).
Proof.
  repeat split.
  intros [[] [] u]; cbn; auto.
Qed.

Lemma no_sep_not_absolute (f : string) :
  has_sep f = false -> PyStr.startswith f "/" = false.
Proof.
  unfold has_sep, PyStr.startswith.
  destruct f; cbn [PyStr.contains]; intros H;
    now apply orb_false_iff in H.
Qed.

Lemma not_absolute_app (f t : string) :
  PyStr.startswith f "/" = false -> f <> "" ->
  PyStr.startswith (f ^^ t) "/" = false.
Proof.
  unfold PyStr.startswith. destruct f as [|a r]; [congruence|].
  intros H _. cbn [append String.prefix] in *.
  destruct (ascii_dec "/" a); [|reflexivity].
  destruct r; discriminate.
Qed.

Lemma join_relative (out name : string) :
  PyStr.startswith name "/" = false ->
  OsPath.join out [name]
  = if String.eqb out "" || PyStr.endswith out "/"
    then out ^^ name else out ^^ "/" ^^ name.
Proof.
  intros H. unfold OsPath.join. cbn [fold_left].
  unfold OsPath.join2. now rewrite H.
Qed.

(** C6, as stated, fails for the entry [.txt]: [os.path.splitext] finds no
    extension in it, so the output is named [.txt.txt]; it is also the
    output of the entry [.txt.txt]. *)
Lemma C6_counterexample_dot_txt :
  recognized ".txt" = true /\
  has_sep ".txt" = false /\
  output_file "/w/out" ".txt" = "/w/out/.txt.txt" /\
  output_file "/w/out" ".txt" <> OsPath.join "/w/out" [".txt"] /\
  output_file "/w/out" ".txt.txt" = output_file "/w/out" ".txt".
Proof.
  split; [reflexivity|]. split; [reflexivity|]. split; [reflexivity|].
  split; [vm_compute; discriminate | reflexivity].
Qed.

(** C6, amended.  For a recognized directory entry, the output path is
    the output folder joined with one name, which does not depend on the
    input folder and is the last argument given to the child.  That name
    is the entry's own name whenever something other than dots precedes
    its final [.txt]; otherwise it is the entry's name followed by
    [.txt].  In particular [case_001.txt] gives [case_001.txt] in the
    output folder. *)
Theorem C6_output_path_of_recognized_entry
  (cfg : Toggles) (HOME : option string) (system : string)
  (src inp out f : string) :
  recognized f = true ->
  has_sep f = false ->
  let name := if only_dots (stem f) then f ^^ ".txt" else f in
  output_file out f = OsPath.join out [name] /\
  OsPath.join out [name]
  = (if String.eqb out "" || PyStr.endswith out "/"
     then out ^^ name else out ^^ "/" ^^ name) /\
  (forall inp',
      last (cmd cfg HOME system src inp' out f) "" = output_file out f) /\
  output_file out "case_001.txt"
  = (if String.eqb out "" || PyStr.endswith out "/"
     then out ^^ "case_001.txt" else out ^^ "/case_001.txt").
Proof.
  intros Hr Hs. cbn zeta.
  split; [|split; [|split]].
  - unfold output_file. now rewrite SplitextFacts.output_name.
  - apply join_relative.
    pose proof (no_sep_not_absolute f Hs) as Hf.
    destruct (only_dots (stem f)); [|exact Hf].
    apply not_absolute_app; [exact Hf|].
    intros ->. discriminate.
  - intros inp'. unfold cmd, java_cmd.
    change ["--enable-native-access=ALL-UNNAMED"; "-Xmx16g"; "-jar";
            jar_path src; input_file inp' f; output_file out f]
      with (["--enable-native-access=ALL-UNNAMED"; "-Xmx16g"; "-jar";
             jar_path src; input_file inp' f] ++ [output_file out f]).
    rewrite !app_assoc. apply last_last.
  - unfold output_file.
    change (OsPath.splitext "case_001.txt") with ("case_001", ".txt").
    cbn [fst append]. now apply join_relative.
Qed.

(** C6 at work: [case_001.txt], whatever the input folder. *)
Lemma C6_witness_case_001 :
  output_file "/w/out" "case_001.txt" = "/w/out/case_001.txt" /\
  last (cmd source_toggles (Some "/home/user") "Linux"
            "/w" "/somewhere/else" "/w/out" "case_001.txt") ""
  = "/w/out/case_001.txt".
Proof.
  pose proof (C6_output_path_of_recognized_entry
                source_toggles (Some "/home/user") "Linux"
                "/w" "/w/in" "/w/out" "case_001.txt"
                eq_refl eq_refl) as H.
  cbn zeta in H. destruct H as (_ & _ & Hlast & Hcase).
  split; [exact Hcase|].
  rewrite (Hlast "/somewhere/else"). exact Hcase.
Defined.


(* ================================================================== *)
(** * Further properties of the script *)

(* ------------------------------------------------------------------ *)
(** ** The entry point (lines 123-134) *)

(** X1.  Started with a number of arguments other than three (so that
    [sys.argv] does not have four elements), the script prints the usage
    line and exits with status 1: nothing is built, swept, created or
    run, and the state is untouched. *)
Theorem X1_wrong_argument_count_exits_1
  (host : Host) (cfg : Toggles) (argv : list string) (s : St) :
  List.length argv <> 4%nat ->
  main host cfg argv s
  = mkOut (Raise (SystemExit 1)) s
          [EvPrint "Usage: python run_challenge.py <source_folder> <input_folder> <output_folder>"].
Proof.
  intros Hlen. unfold main.
  apply Nat.eqb_neq in Hlen. rewrite Hlen. reflexivity.
Qed.

(** X1 at work: only the source folder is given. *)
Lemma X1_witness_one_argument :
  res (main Scenario.build_fails source_toggles
            ["run_challenge.py"; "/w"] Scenario.st0)
  = Raise (SystemExit 1) /\
  runs_of (log (main Scenario.build_fails source_toggles
                     ["run_challenge.py"; "/w"] Scenario.st0)) = [].
Proof.
  rewrite (X1_wrong_argument_count_exits_1
             Scenario.build_fails source_toggles
             ["run_challenge.py"; "/w"] Scenario.st0
             ltac:(discriminate)).
  split; reflexivity.
Defined.

Lemma compile_code_eq (host : Host) (src : string) (s : St) :
  compile_code host src s
  = let s' := mkSt (fs s) (S (nrun s)) in
    let start :=
      [EvPrint ("Compiling code in " ^^ src ^^ "...");
       EvRun ["mvn"; "clean"; "package"] (compile_opts src)] in
    match subprocess_run host (nrun s) ["mvn"; "clean"; "package"]
                         (compile_opts src) with
    | Raise e => mkOut (Raise e) s' start
    | Ok cp =>
        if returncode cp =? 0
        then mkOut (Ok true) s'
                   (start ++ [EvPrint "Maven compilation successful."])
        else mkOut (Ok false) s'
                   (start ++ [EvPrint "Maven compilation failed:";
                              EvPrint (stderr cp)])
    end.
Proof.
  unfold compile_code, bind, print, emit, run_process, ret.
  cbn [res st log fs nrun].
  destruct (subprocess_run host (nrun s) _ _) as [cp|e];
    cbn [res st log fs nrun]; [|reflexivity].
  destruct (returncode cp =? 0); reflexivity.
Qed.

(** X2.  When Maven exits with status 0, [compile_code] prints the
    success line and returns [True], and the script goes on with
    [run_benchmark] on the three absolute paths: the result of the script
    is that of [run_benchmark], and its log is the three lines of the
    build followed by the log of [run_benchmark]. *)
Theorem X2_build_success_then_benchmark
  (host : Host) (cfg : Toggles) (argv : list string) (s : St)
  (cp : CompletedProcess) :
  List.length argv = 4%nat ->
  subprocess_run host (nrun s) ["mvn"; "clean"; "package"]
                 (compile_opts (abspath host (nth 1 argv ""))) = Ok cp ->
  returncode cp = 0 ->
  let src := abspath host (nth 1 argv "") in
  let inp := abspath host (nth 2 argv "") in
  let out := abspath host (nth 3 argv "") in
  let build_log :=
    [EvPrint ("Compiling code in " ^^ src ^^ "...");
     EvRun ["mvn"; "clean"; "package"] (mkRunOpts true true true src);
     EvPrint "Maven compilation successful."] in
  let o := run_benchmark host cfg src inp out (mkSt (fs s) (S (nrun s))) in
  compile_code host src s
  = mkOut (Ok true) (mkSt (fs s) (S (nrun s))) build_log /\
  main host cfg argv s = mkOut (res o) (st o) (build_log ++ log o).
Proof.
  intros Hlen Hrun Hrc. cbn zeta.
  assert (Hc : compile_code host (abspath host (nth 1 argv "")) s
               = mkOut (Ok true) (mkSt (fs s) (S (nrun s)))
                   [EvPrint ("Compiling code in "
                               ^^ abspath host (nth 1 argv "") ^^ "...");
                    EvRun ["mvn"; "clean"; "package"]
                          (mkRunOpts true true true
                                     (abspath host (nth 1 argv "")));
                    EvPrint "Maven compilation successful."]).
  { rewrite compile_code_eq. cbn zeta. rewrite Hrun, Hrc. reflexivity. }
  split; [exact Hc|].
  unfold main. rewrite Hlen. cbn [Nat.eqb negb].
  rewrite bind_eq, Hc. reflexivity.
Qed.

(** X2 at work: the build succeeds and the directory holds nothing to
    run. *)
Lemma X2_witness_build_then_empty_run :
  let o := main Scenario.nothing_to_run source_toggles
                ["run_challenge.py"; "/w"; "/w/in"; "/w/out"]
                Scenario.st0 in
  res o = Ok tt /\
  runs_of (log o)
  = [(["mvn"; "clean"; "package"], mkRunOpts true true true "/w")] /\
  listdirs_of (log o) = ["/w/in"].
Proof.
  pose proof (X2_build_success_then_benchmark
                Scenario.nothing_to_run source_toggles
                ["run_challenge.py"; "/w"; "/w/in"; "/w/out"]
                Scenario.st0 (mkCompleted 0 "")
                eq_refl eq_refl eq_refl) as H.
  cbn zeta in H. destruct H as [_ Hm].
  cbn zeta. rewrite Hm. vm_compute. repeat split.
Defined.

(** X3.  When Maven cannot be started at all ([subprocess.run] raises),
    the exception leaves [compile_code] and the script: nothing is
    printed after the "Compiling" line, and [run_benchmark] is not
    entered. *)
Theorem X3_build_tool_missing_propagates
  (host : Host) (cfg : Toggles) (argv : list string) (s : St) (e : exn) :
  List.length argv = 4%nat ->
  subprocess_run host (nrun s) ["mvn"; "clean"; "package"]
                 (compile_opts (abspath host (nth 1 argv ""))) = Raise e ->
  let src := abspath host (nth 1 argv "") in
  let build_log :=
    [EvPrint ("Compiling code in " ^^ src ^^ "...");
     EvRun ["mvn"; "clean"; "package"] (mkRunOpts true true true src)] in
  compile_code host src s
  = mkOut (Raise e) (mkSt (fs s) (S (nrun s))) build_log /\
  main host cfg argv s
  = mkOut (Raise e) (mkSt (fs s) (S (nrun s))) build_log.
Proof.
  intros Hlen Hrun. cbn zeta.
  assert (Hc : compile_code host (abspath host (nth 1 argv "")) s
               = mkOut (Raise e) (mkSt (fs s) (S (nrun s)))
                   [EvPrint ("Compiling code in "
                               ^^ abspath host (nth 1 argv "") ^^ "...");
                    EvRun ["mvn"; "clean"; "package"]
                          (mkRunOpts true true true
                                     (abspath host (nth 1 argv "")))]).
  { rewrite compile_code_eq. cbn zeta. rewrite Hrun. reflexivity. }
  split; [exact Hc|].
  unfold main. rewrite Hlen. cbn [Nat.eqb negb].
  rewrite bind_eq, Hc. reflexivity.
Qed.

(** X3 at work: a host on which no program can be started. *)
Lemma X3_witness_no_maven :
  res (main (mkHost None "Linux" (fun p => p) []
                    (fun _ => Ok ["a.txt"])
                    (fun _ _ _ => Raise (OSError "No such file: mvn")))
            source_toggles
            ["run_challenge.py"; "/w"; "/w/in"; "/w/out"] Scenario.st0)
  = Raise (OSError "No such file: mvn").
Proof.
  exact (f_equal res
           (proj2 (X3_build_tool_missing_propagates
                     (mkHost None "Linux" (fun p => p) []
                             (fun _ => Ok ["a.txt"])
                             (fun _ _ _ => Raise (OSError "No such file: mvn")))
                     source_toggles
                     ["run_challenge.py"; "/w"; "/w/in"; "/w/out"]
                     Scenario.st0 (OSError "No such file: mvn")
                     eq_refl eq_refl))).
Defined.

(* ------------------------------------------------------------------ *)
(** ** Other ways a run of [run_benchmark] can end (lines 55-120) *)

(** X4.  When the output folder can be made, the input folder can be
    listed and every child exits with status 0, [run_benchmark] returns
    normally after starting exactly one child for each entry ending in
    [.txt], in listing order; the log holds nothing but the preamble and,
    per entry, the "Running" line and the child. *)
Theorem X4_all_children_succeed
  (host : Host) (cfg : Toggles) (src inp out : string) (s : St)
  (names : list string) :
  fst (makedirs_exist_ok out (fs s)) = Ok tt ->
  listdir host inp = Ok names ->
  all_exit_zero host cfg src inp out (nrun s) (filter recognized names)
  = true ->
  let o := run_benchmark host cfg src inp out s in
  res o = Ok tt /\
  log o = head_log host src inp out
          ++ flat_map (run_events host cfg src inp out)
                      (filter recognized names) /\
  runs_of (log o)
  = map (spawn host cfg src inp out) (filter recognized names) /\
  nrun (st o) = (nrun s + List.length (filter recognized names))%nat.
Proof.
  intros Hmk Hls Hok. cbn zeta.
  rewrite (run_benchmark_all_ok host cfg src inp out s names Hmk Hls Hok).
  cbn [res st log nrun].
  split; [reflexivity|]. split; [reflexivity|]. split; [|reflexivity].
  now rewrite runs_of_app, runs_of_head, runs_of_events.
Qed.

(** X4 at work: five recognized entries among six, all children exit
    with 0. *)
Lemma X4_witness_five_children :
  let o := run_benchmark (Scenario.third_fails 0) Scenario.timeout_on
                         "/w" "/w/in" "/w/out" Scenario.st0 in
  res o = Ok tt /\
  map (fun r => nth 8 (fst r) "") (runs_of (log o))
  = ["/w/in/a.txt"; "/w/in/b.txt"; "/w/in/c.txt"; "/w/in/d.txt";
     "/w/in/e.txt"].
Proof.
  pose proof (X4_all_children_succeed
                (Scenario.third_fails 0) Scenario.timeout_on
                "/w" "/w/in" "/w/out" Scenario.st0 Scenario.five_inputs
                eq_refl eq_refl eq_refl) as H.
  cbn zeta in H. destruct H as (Hres & _ & Hruns & _).
  cbn zeta. split; [exact Hres|]. rewrite Hruns. reflexivity.
Defined.

(** X5.  When the input folder cannot be listed ([os.listdir] raises, as
    for a folder that does not exist), the exception ends
    [run_benchmark] without any child; by then the sweep has been done
    and the output folder has been created. *)
Theorem X5_unlistable_input_folder
  (host : Host) (cfg : Toggles) (src inp out : string) (s : St) (e : exn) :
  fst (makedirs_exist_ok out (fs s)) = Ok tt ->
  listdir host inp = Raise e ->
  let o := run_benchmark host cfg src inp out s in
  res o = Raise e /\
  log o = head_log host src inp out /\
  runs_of (log o) = [] /\
  kills_of (log o) = map pid (filter is_stale (process_iter host)) /\
  is_dir (fs (st o)) out = true.
Proof.
  intros Hmk Hls. cbn zeta.
  rewrite run_benchmark_unfold. cbn zeta. rewrite Hmk, Hls.
  cbn [res st log fs].
  split; [reflexivity|]. split; [reflexivity|].
  split; [apply runs_of_head|]. split.
  - unfold head_log. rewrite kills_of_app, kills_of_sweep.
    cbn [kills_of]. now rewrite app_nil_r.
  - exact (proj1 (makedirs_spec out (fs s) Hmk)).
Qed.

(** X5 at work: the input folder is missing, the output folder is made
    all the same. *)
Lemma X5_witness_missing_input_folder :
  let o := run_benchmark
             (mkHost None "Linux" (fun p => p) Scenario.table
                     (fun p => Raise (OSError ("No such directory: " ^^ p)))
                     (fun _ _ _ => Ok (mkCompleted 0 "")))
             source_toggles "/w" "/w/in" "/w/out" Scenario.st0 in
  res o = Raise (OSError "No such directory: /w/in") /\
  is_dir (fs (st o)) "/w/out" = true.
Proof.
  pose proof (X5_unlistable_input_folder
                (mkHost None "Linux" (fun p => p) Scenario.table
                        (fun p => Raise (OSError ("No such directory: " ^^ p)))
                        (fun _ _ _ => Ok (mkCompleted 0 "")))
                source_toggles "/w" "/w/in" "/w/out" Scenario.st0
                (OSError "No such directory: /w/in")
                eq_refl eq_refl) as H.
  cbn zeta in H. destruct H as (Hres & _ & _ & _ & Hd).
  cbn zeta. split; [exact Hres | exact Hd].
Defined.

(** X6.  When a child cannot be started ([subprocess.run] raises, as when
    [java] or the timeout wrapper is not installed), the exception ends
    the run at that entry: the children of the earlier entries have run,
    none is started for a later entry, and neither failure line is
    printed. *)
Theorem X6_child_that_cannot_start
  (host : Host) (cfg : Toggles) (src inp out : string) (s : St)
  (names pre post : list string) (f : string) (e : exn) :
  fst (makedirs_exist_ok out (fs s)) = Ok tt ->
  listdir host inp = Ok names ->
  filter recognized names = pre ++ f :: post ->
  all_exit_zero host cfg src inp out (nrun s) pre = true ->
  subprocess_run host (nrun s + List.length pre)
                 (fst (spawn host cfg src inp out f))
                 (snd (spawn host cfg src inp out f)) = Raise e ->
  let o := run_benchmark host cfg src inp out s in
  res o = Raise e /\
  log o = head_log host src inp out
          ++ flat_map (run_events host cfg src inp out) (pre ++ [f]) /\
  runs_of (log o) = map (spawn host cfg src inp out) (pre ++ [f]) /\
  nrun (st o) = (nrun s + List.length pre + 1)%nat.
Proof.
  intros Hmk Hls Hsplit Hpre Hrun. cbn zeta.
  pose proof (filter_recognized names) as Hrec.
  rewrite Hsplit in Hrec. apply Forall_app in Hrec.
  destruct Hrec as [Hrec_pre Hrec_f].
  inversion Hrec_f as [|? ? Hf _]; subst.
  rewrite run_benchmark_unfold. cbn zeta.
  rewrite Hmk, Hls, loop_filter, Hsplit.
  rewrite loop_prefix_ok by assumption.
  cbn [fs nrun]. cbn zeta.
  rewrite for_each_cons, run_one_recognized by exact Hf.
  cbn [fs nrun]. cbn zeta. rewrite Hrun. cbn [res st log nrun].
  assert (Hlog :
    head_log host src inp out
      ++ flat_map (run_events host cfg src inp out) pre
      ++ run_events host cfg src inp out f
    = head_log host src inp out
      ++ flat_map (run_events host cfg src inp out) (pre ++ [f])).
  { rewrite flat_map_app. cbn [flat_map]. now rewrite app_nil_r. }
  rewrite Hlog.
  split; [reflexivity|]. split; [reflexivity|]. split; [|lia].
  now rewrite runs_of_app, runs_of_head, runs_of_events.
Qed.

(** X6 at work: the second child cannot be started. *)
Lemma X6_witness_second_child_cannot_start :
  let h := mkHost None "Linux" (fun p => p) []
             (fun _ => Ok ["a.txt"; "b.txt"; "c.txt"])
             (fun n _ _ => if Nat.eqb n 1
                           then Raise (OSError "No such file: java")
                           else Ok (mkCompleted 0 "")) in
  let o := run_benchmark h source_toggles "/w" "/w/in" "/w/out"
                         Scenario.st0 in
  res o = Raise (OSError "No such file: java") /\
  List.length (runs_of (log o)) = 2%nat.
Proof.
  cbn zeta.
  pose proof (X6_child_that_cannot_start
                (mkHost None "Linux" (fun p => p) []
                        (fun _ => Ok ["a.txt"; "b.txt"; "c.txt"])
                        (fun n _ _ => if Nat.eqb n 1
                                      then Raise (OSError "No such file: java")
                                      else Ok (mkCompleted 0 "")))
                source_toggles "/w" "/w/in" "/w/out" Scenario.st0
                ["a.txt"; "b.txt"; "c.txt"] ["a.txt"] ["c.txt"] "b.txt"
                (OSError "No such file: java")
                eq_refl eq_refl eq_refl eq_refl eq_refl) as H.
  cbn zeta in H. destruct H as (Hres & _ & Hruns & _).
  split; [exact Hres|]. rewrite Hruns. reflexivity.
Defined.

(* ------------------------------------------------------------------ *)
(** ** Input and output paths (lines 86-87) *)

Lemma app_inv_head_s (a x y : string) : a ^^ x = a ^^ y -> x = y.
Proof.
  induction a as [|c a IH]; cbn [append]; [trivial|].
  intros H. inversion H. auto.
Qed.

Lemma join_relative_inj (out f g : string) :
  PyStr.startswith f "/" = false ->
  PyStr.startswith g "/" = false ->
  OsPath.join out [f] = OsPath.join out [g] -> f = g.
Proof.
  intros Hf Hg. rewrite !join_relative by assumption.
  destruct (String.eqb out "" || PyStr.endswith out "/"); intros H.
  - now apply app_inv_head_s in H.
  - apply app_inv_head_s in H. now inversion H.
Qed.

(** The output path of an entry whose stem is not made of dots. *)
Lemma output_file_plain (out f : string) :
  recognized f = true -> has_sep f = false ->
  only_dots (stem f) = false ->
  output_file out f = OsPath.join out [f].
Proof.
  intros Hr Hs Hd. unfold output_file.
  now rewrite SplitextFacts.output_name, Hd.
Qed.

(** X8.  Two different entries of the input folder never share an output
    path, as long as each has something other than dots before its final
    [.txt]: no child overwrites the output of another. *)
Theorem X8_distinct_entries_distinct_outputs (out f g : string) :
  recognized f = true -> recognized g = true ->
  has_sep f = false -> has_sep g = false ->
  only_dots (stem f) = false -> only_dots (stem g) = false ->
  f <> g ->
  output_file out f <> output_file out g.
Proof.
  intros Hrf Hrg Hsf Hsg Hdf Hdg Hne Heq. apply Hne.
  rewrite !output_file_plain in Heq by assumption.
  apply (join_relative_inj out); auto using no_sep_not_absolute.
Qed.

(** X8 at work. *)
Lemma X8_witness_two_entries :
  output_file "/w/out" "a.txt" = "/w/out/a.txt" /\
  output_file "/w/out" "b..txt" = "/w/out/b..txt" /\
  output_file "/w/out" "a.txt" <> output_file "/w/out" "b..txt".
Proof.
  split; [reflexivity|]. split; [reflexivity|].
  exact (X8_distinct_entries_distinct_outputs "/w/out" "a.txt" "b..txt"
           eq_refl eq_refl eq_refl eq_refl eq_refl eq_refl
           ltac:(discriminate)).
Defined.

(** X9.  When the output folder is the input folder, the child of such
    an entry is given one and the same path as its input and as its
    output. *)
Theorem X9_same_folder_output_is_input (folder f : string) :
  recognized f = true -> has_sep f = false ->
  only_dots (stem f) = false ->
  output_file folder f = input_file folder f.
Proof.
  intros Hr Hs Hd. now rewrite output_file_plain.
Qed.

(** X9 at work. *)
Lemma X9_witness_in_place :
  output_file "/w/data" "case_001.txt" = "/w/data/case_001.txt" /\
  input_file "/w/data" "case_001.txt" = "/w/data/case_001.txt".
Proof.
  pose proof (X9_same_folder_output_is_input "/w/data" "case_001.txt"
                eq_refl eq_refl eq_refl) as H.
  split; [rewrite H|]; reflexivity.
Defined.

(* ------------------------------------------------------------------ *)
(** ** Which processes the sweep takes for stale (lines 27-28) *)

Lemma prefix_empty (s : string) : String.prefix "" s = true.
Proof. destruct s; reflexivity. Qed.

Lemma prefix_of_empty (n : string) : String.prefix n "" = true -> n = "".
Proof. destruct n; [trivial | discriminate]. Qed.

Lemma prefix_app (n a b : string) :
  String.prefix n a = true -> String.prefix n (a ^^ b) = true.
Proof.
  revert a. induction n as [|c n IH]; intros a H.
  - apply prefix_empty.
  - destruct a as [|x a]; [discriminate|].
    cbn [append String.prefix] in *.
    destruct (ascii_dec c x); [now apply IH | discriminate].
Qed.

Lemma contains_app_l (n a b : string) :
  PyStr.contains n a = true -> PyStr.contains n (a ^^ b) = true.
Proof.
  induction a as [|x a IH]; cbn [PyStr.contains append]; intros H.
  - rewrite orb_false_r in H. apply prefix_of_empty in H. subst n.
    destruct b; reflexivity.
  - apply orb_true_iff in H. apply orb_true_iff. destruct H as [H|H].
    + left. exact (prefix_app n (String x a) b H).
    + right. now apply IH.
Qed.

Lemma contains_app_r (n a b : string) :
  PyStr.contains n b = true -> PyStr.contains n (a ^^ b) = true.
Proof.
  intros H. induction a as [|x a IH]; cbn [PyStr.contains append].
  - exact H.
  - rewrite IH. apply orb_true_r.
Qed.

(** A needle without space that starts before a space ends before it. *)
Lemma prefix_stops_at_space (n a r : string) :
  PyStr.contains " " n = false ->
  String.prefix n (a ^^ String " " r) = true ->
  String.prefix n a = true.
Proof.
  revert n. induction a as [|x a IH]; intros n Hn H.
  - destruct n as [|c n]; [reflexivity|]. exfalso.
    cbn [append String.prefix] in H.
    destruct (ascii_dec c " ") as [->|]; [|discriminate].
    cbn [PyStr.contains String.prefix] in Hn.
    destruct (ascii_dec " " " ") as [_|Hne]; [|now apply Hne].
    now rewrite prefix_empty in Hn.
  - destruct n as [|c n]; [reflexivity|].
    cbn [append String.prefix] in *.
    destruct (ascii_dec c x); [|discriminate].
    apply IH; [|exact H].
    cbn [PyStr.contains] in Hn. now apply orb_false_iff in Hn.
Qed.

Lemma contains_across_space (n a r : string) :
  PyStr.contains " " n = false -> n <> "" ->
  PyStr.contains n (a ^^ String " " r) = true ->
  PyStr.contains n a = true \/ PyStr.contains n r = true.
Proof.
  intros Hn Hne. induction a as [|x a IH]; cbn [append]; intros H.
  - cbn [PyStr.contains] in H. apply orb_true_iff in H.
    destruct H as [H|H]; [|now right].
    apply (prefix_stops_at_space n "" r Hn) in H.
    apply prefix_of_empty in H. contradiction.
  - cbn [PyStr.contains] in H. apply orb_true_iff in H.
    destruct H as [H|H].
    + left. cbn [PyStr.contains]. apply orb_true_iff. left.
      exact (prefix_stops_at_space n (String x a) r Hn H).
    + destruct (IH H) as [Ha|Hr]; [left | now right].
      cbn [PyStr.contains]. rewrite Ha. apply orb_true_r.
Qed.

(** A needle without space occurs in [' '.join(l)] exactly when it
    occurs in one of the strings of [l]. *)
Lemma contains_join (n : string) (l : list string) :
  PyStr.contains " " n = false -> n <> "" ->
  PyStr.contains n (PyStr.join " " l) = true
  <-> exists a, In a l /\ PyStr.contains n a = true.
Proof.
  intros Hn Hne. unfold PyStr.join.
  induction l as [|x l IH].
  - cbn. rewrite orb_false_r. split.
    + intros H. apply prefix_of_empty in H. contradiction.
    + intros (a & [] & _).
  - destruct l as [|y l].
    + cbn [String.concat]. split.
      * intros H. exists x. split; [now left | exact H].
      * intros (a & [<-|[]] & H). exact H.
    + change (String.concat " " (x :: y :: l))
        with (x ^^ String " " (String.concat " " (y :: l))).
      split.
      * intros H. apply contains_across_space in H; [|assumption..].
        destruct H as [H|H].
        -- exists x. split; [now left | exact H].
        -- apply IH in H. destruct H as (a & Ha & H).
           exists a. split; [now right | exact H].
      * intros (a & [<-|Ha] & H).
        -- now apply contains_app_l.
        -- apply contains_app_r.
           change (String " " (String.concat " " (y :: l)))
             with (" " ^^ String.concat " " (y :: l)).
           apply contains_app_r. apply IH. now exists a.
Qed.

(** X10.  The sweep takes a process for stale exactly when its command
    line can be read and one of its arguments contains the jar's file
    name: joining the arguments with spaces creates no match of its own,
    and a process whose command line is unreadable or empty is never
    killed. *)
Theorem X10_stale_iff_an_argument_names_the_jar (p : Proc) :
  is_stale p = true
  <-> exists c a, cmdline p = Some c /\ In a c /\
                  PyStr.contains "ChallengeSBPO2025-1.0.jar" a = true.
Proof.
  assert (Hj : forall c,
             PyStr.contains JAR_NAME (PyStr.join " " c) = true
             <-> exists a, In a c /\ PyStr.contains JAR_NAME a = true).
  { intros c. apply contains_join; [reflexivity | discriminate]. }
  unfold is_stale. destruct (cmdline p) as [[|x c]|].
  - split; [discriminate|]. intros (c & a & Hc & Ha & _).
    inversion Hc; subst. destruct Ha.
  - rewrite Hj. split.
    + intros (a & Ha & H). exists (x :: c), a. auto.
    + intros (c' & a & Hc & Ha & H). inversion Hc; subst. now exists a.
  - split; [discriminate|]. intros (c & a & Hc & _). discriminate.
Qed.

(* ------------------------------------------------------------------ *)
(** ** The shape of the paths given to a child (lines 86-87) *)

Lemma endswith_refl (b : string) : PyStr.endswith b b = true.
Proof. exact (StrFacts.endswith_app "" b). Qed.

Lemma endswith_trans (s b suf : string) :
  PyStr.endswith s b = true -> PyStr.endswith b suf = true ->
  PyStr.endswith s suf = true.
Proof.
  intros Hs Hb.
  rewrite (StrFacts.endswith_inv s b Hs).
  rewrite (StrFacts.endswith_inv b suf Hb) at 2.
  rewrite <- StrFacts.app_assoc_s. apply StrFacts.endswith_app.
Qed.

Lemma endswith_join2 (path b : string) :
  PyStr.endswith (OsPath.join2 path b) b = true.
Proof.
  unfold OsPath.join2.
  destruct (PyStr.startswith b "/"); [apply endswith_refl|].
  destruct (String.eqb path "" || PyStr.endswith path "/").
  - apply StrFacts.endswith_app.
  - rewrite <- StrFacts.app_assoc_s. apply StrFacts.endswith_app.
Qed.

(** X11.  Whatever the folders and the entry: the input path given to
    the child ends with the entry's name (so it ends in [.txt] for every
    entry that gets a child), and the output path ends in [.txt]. *)
Theorem X11_child_paths_end_as_expected (inp out f : string) :
  PyStr.endswith (input_file inp f) f = true /\
  (PyStr.endswith f ".txt" = true ->
   PyStr.endswith (input_file inp f) ".txt" = true) /\
  PyStr.endswith (output_file out f) ".txt" = true.
Proof.
  assert (Hin : PyStr.endswith (input_file inp f) f = true)
    by apply endswith_join2.
  split; [exact Hin|]. split.
  - intros Hf. exact (endswith_trans _ _ _ Hin Hf).
  - unfold output_file, OsPath.join. cbn [fold_left].
    eapply endswith_trans; [apply endswith_join2|].
    apply StrFacts.endswith_app.
Qed.

(* ------------------------------------------------------------------ *)
(** ** [os.path.splitext], as line 87 uses it *)

Lemma rfind_upper (c : ascii) (s : string) :
  PyStr.rfind c s < Z.of_nat (String.length s).
Proof.
  induction s as [|x s IH]; cbn [PyStr.rfind String.length]; [lia|].
  destruct (0 <=? PyStr.rfind c s); [lia|].
  destruct (Ascii.eqb x c); lia.
Qed.

(** From the last occurrence of [c] on, a string starts with [c]. *)
Lemma slice_from_rfind (c : ascii) (s : string) :
  0 <= PyStr.rfind c s ->
  exists r, PyStr.slice_from s (PyStr.rfind c s) = String c r.
Proof.
  unfold PyStr.slice_from.
  induction s as [|x s IH]; cbn [PyStr.rfind String.length].
  - lia.
  - destruct (0 <=? PyStr.rfind c s) eqn:E.
    + intros _. apply Z.leb_le in E. destruct (IH E) as [r Hr].
      exists r.
      replace (Z.to_nat (PyStr.rfind c s + 1))
        with (S (Z.to_nat (PyStr.rfind c s))) by lia.
      cbn [substring Nat.sub]. exact Hr.
    + destruct (Ascii.eqb x c) eqn:Ec; [|lia].
      intros _. apply Ascii.eqb_eq in Ec. subst x.
      exists s. cbn [Z.to_nat substring Nat.sub].
      now rewrite StrFacts.substring_all.
Qed.

Lemma splitext_loop_cases (p : string) (d : Z) (n : nat) (i : Z) :
  OsPath.splitext_loop p d n i = (p, "") \/
  OsPath.splitext_loop p d n i
  = (PyStr.slice_to p d, PyStr.slice_from p d).
Proof.
  revert i. induction n as [|n IH]; intros i; cbn [OsPath.splitext_loop].
  - now left.
  - destruct (negb (String.eqb (PyStr.slice1 p i) ".")); [now right|].
    apply IH.
Qed.

(** X12.  [os.path.splitext] loses nothing: root and extension put
    together give the name again, and the extension is empty or starts
    with a dot.  So the output name of line 87 is the entry's name with
    that extension taken off and [.txt] put on. *)
Theorem X12_splitext_splits_the_name (p : string) :
  fst (OsPath.splitext p) ^^ snd (OsPath.splitext p) = p /\
  (snd (OsPath.splitext p) = "" \/
   PyStr.startswith (snd (OsPath.splitext p)) "." = true).
Proof.
  unfold OsPath.splitext.
  pose proof (StrFacts.rfind_lower "/" p) as Hsep.
  pose proof (rfind_upper "." p) as Hup.
  destruct (PyStr.rfind "/" p <? PyStr.rfind "." p) eqn:E.
  - apply Z.ltb_lt in E.
    assert (Hd : 0 <= PyStr.rfind "." p) by lia.
    destruct (splitext_loop_cases p (PyStr.rfind "." p)
                (Z.to_nat (PyStr.rfind "." p - (PyStr.rfind "/" p + 1)))
                (PyStr.rfind "/" p + 1)) as [->| ->]; cbn [fst snd].
    + split; [apply StrFacts.app_empty_r | now left].
    + split.
      * unfold PyStr.slice_to, PyStr.slice_from.
        symmetry. apply StrFacts.substring_split. lia.
      * right. destruct (slice_from_rfind "." p Hd) as [r ->].
        unfold PyStr.startswith. cbn [String.prefix].
        destruct (ascii_dec "." "."); [apply prefix_empty | congruence].
  - cbn [fst snd]. split; [apply StrFacts.app_empty_r | now left].
Qed.

(* ------------------------------------------------------------------ *)
(** ** What a normal return of [run_benchmark] means (lines 82-120) *)

Lemma loop_ok_inv
  (host : Host) (cfg : Toggles) (src inp out : string)
  (l : list string) (s : St) :
  Forall (fun f => recognized f = true) l ->
  res (for_each (run_one host cfg src inp out) l s) = Ok tt ->
  all_exit_zero host cfg src inp out (nrun s) l = true.
Proof.
  revert s. induction l as [|f l IH]; intros s Hrec Hres; [reflexivity|].
  inversion Hrec as [|? ? Hf Hrec']; subst.
  rewrite for_each_cons, run_one_recognized in Hres by exact Hf.
  cbn zeta in Hres. cbn [all_exit_zero].
  destruct (subprocess_run host (nrun s)
              (fst (spawn host cfg src inp out f))
              (snd (spawn host cfg src inp out f))) as [cp|e];
    [|discriminate].
  destruct (USE_TIMEOUT cfg && (returncode cp =? 124)); [discriminate|].
  destruct (returncode cp =? 0); cbn [negb] in Hres; [|discriminate].
  cbn [res st log andb] in *.
  exact (IH (mkSt (fs s) (S (nrun s))) Hrec' Hres).
Qed.

(** X13.  [run_benchmark] returns normally only if the output folder
    could be made, the input folder could be listed, and a child was
    started for every entry ending in [.txt] and exited with status 0:
    a normal return never hides a skipped or failed entry. *)
Theorem X13_normal_return_means_all_ran
  (host : Host) (cfg : Toggles) (src inp out : string) (s : St) :
  res (run_benchmark host cfg src inp out s) = Ok tt ->
  fst (makedirs_exist_ok out (fs s)) = Ok tt /\
  exists names,
    listdir host inp = Ok names /\
    all_exit_zero host cfg src inp out (nrun s) (filter recognized names)
    = true /\
    runs_of (log (run_benchmark host cfg src inp out s))
    = map (spawn host cfg src inp out) (filter recognized names).
Proof.
  intros Hres.
  pose proof Hres as Hres'.
  rewrite run_benchmark_unfold in Hres'. cbn zeta in Hres'.
  destruct (fst (makedirs_exist_ok out (fs s))) as [[]|e] eqn:Hmk;
    [|discriminate].
  split; [reflexivity|].
  destruct (listdir host inp) as [names|e] eqn:Hls; [|discriminate].
  exists names. split; [reflexivity|].
  cbn [res] in Hres'. rewrite loop_filter in Hres'.
  pose proof (loop_ok_inv host cfg src inp out _ _
                (filter_recognized names) Hres') as Hok.
  cbn [nrun] in Hok. split; [exact Hok|].
  rewrite (run_benchmark_all_ok host cfg src inp out s names Hmk Hls Hok).
  cbn [log]. now rewrite runs_of_app, runs_of_head, runs_of_events.
Qed.

(** X13 at work: a run over five recognized entries that returns
    normally. *)
Lemma X13_witness_five_ran :
  List.length
    (runs_of (log (run_benchmark (Scenario.third_fails 0) source_toggles
                                 "/w" "/w/in" "/w/out" Scenario.st0)))
  = 5%nat.
Proof.
  destruct (X13_normal_return_means_all_ran
              (Scenario.third_fails 0) source_toggles
              "/w" "/w/in" "/w/out" Scenario.st0 eq_refl)
    as (_ & names & Hls & _ & Hruns).
  rewrite Hruns. rewrite length_map.
  injection Hls as <-. reflexivity.
Defined.
